(** * Barcode API endpoints (InvenTree/plugin/base/barcodes/api.py)

    A shallow embedding of the four request handlers of the barcode API:
    [BarcodeScan.post], [BarcodeAssign.post], [BarcodeUnassign.post] and
    [BarcodePOReceive.post].

    Python dictionaries are finite maps from strings to JSON-like values.
    The database, the plugin registry, the permission rules and the hash
    function live outside the file that is modelled; they are the variables
    of the section below.  Every call that leaves the file (a plugin's
    [scan], a database lookup, a permission check, a barcode mutation) is
    recorded in a trace, so that statements such as "this plugin is never
    invoked" can be written down and proved.

    What the model leaves out: logging; exceptions raised inside a plugin,
    a permission check or a barcode mutation (the handlers catch none of
    them, except that [BarcodeAssign.post] would turn a [ValueError] of
    [assign_barcode] into its "no matching instance" error); and the fact
    that the handlers update the dictionary a plugin returned in place,
    which the plugin could observe later. *)

From stdpp Require Import gmap strings list fin_maps.

Local Set Warnings "-register-all".

(** ** Values *)

(** What a request body or a plugin response can hold.  Floating point
    numbers are left out: no endpoint computes with them. *)
Inductive Value : Type :=
| VNone
| VBool (b : bool)
| VInt (z : Z)
| VStr (s : string)
| VList (l : list Value)
| VDict (d : gmap string Value).

Abbreviation Dict := (gmap string Value).

(** [not d] on a dictionary. *)
Definition dict_is_empty (d : Dict) : bool :=
  match map_to_list d with
  | [] => true
  | _ :: _ => false
  end.

(** Python truthiness, as used by [if not barcode_data] and
    [if plugin.scan(...)]. *)
Definition truthy (v : Value) : bool :=
  match v with
  | VNone => false
  | VBool b => b
  | VInt z => negb (z =? 0)%Z
  | VStr s => match s with EmptyString => false | String _ _ => true end
  | VList l => match l with [] => false | _ :: _ => true end
  | VDict d => negb (dict_is_empty d)
  end.

(** [data.get(key)] and [data.get(key, None)]. *)
Definition dict_get (d : Dict) (k : string) : Value :=
  default VNone (d !! k).

(** [key in d]. *)
Definition has_key (k : string) (d : Dict) : bool :=
  match d !! k with
  | Some _ => true
  | None => false
  end.

(** Truthiness of what [scan] returns: [None] or a dictionary. *)
Definition truthy_result (r : option Dict) : bool :=
  match r with
  | None => false
  | Some d => negb (dict_is_empty d)
  end.

(** [gettext_lazy], imported as [_]: the message itself. *)
Definition gettext_lazy (s : string) : string := s.

(** [', '.join(labels)]. *)
Definition join_labels (labels : list string) : string :=
  String.concat ", " labels.

(** [str(labels)] for a list of plain strings, as the f-string of
    [BarcodeAssign.post] prints it. *)
Definition repr_labels (labels : list string) : string :=
  "[" +:+ String.concat ", " (map (fun l => "'" +:+ l +:+ "'") labels) +:+ "]".

(** ** Database models *)

(** A model class, as far as the endpoints look at it:
    [model.barcode_model_type()], [model._meta.app_label] and
    [model._meta.model_name]. *)
Record Model : Type := {
  barcode_model_type : string;
  app_label : string;
  model_name : string
}.

Global Instance Model_eq_dec : EqDecision Model.
Proof. solve_decision. Defined.

(** [f"{app_label}_{model_name}"]. *)
Definition table_name (m : Model) : string :=
  app_label m +:+ "_" +:+ model_name m.

(** What the database answers to a primary-key query: a row, no row, or a
    key that cannot be a primary key at all (Django's [ValueError]). *)
Inductive Lookup (I : Type) : Type :=
| Found (i : I)
| Missing
| Malformed.
Arguments Found {I} i.
Arguments Missing {I}.
Arguments Malformed {I}.

(** ** Exceptions and results *)

Inductive Exn : Type :=
| ValidationError (detail : Dict)
| PermissionDenied (detail : Dict)
| DoesNotExist (m : Model)
| ValueError
| StopIteration.

(** A request handler either returns [Response(body)] or raises. *)
Inductive Res (A : Type) : Type :=
| Ret (a : A)
| Raise (e : Exn).
Arguments Ret {A} a.
Arguments Raise {A} e.

(** How a loop whose body may [return] ends: by that [return], or by
    running off the end of the list with its loop variables. *)
Inductive Flow (A B : Type) : Type :=
| Returned (a : A)
| Completed (b : B).
Arguments Returned {A B} a.
Arguments Completed {A B} b.

(** ** The rest of the application *)

(** What the endpoints need from the rest of the application: the
    database ([World]), the request's user, model instances, and the
    functions and classes the file imports. *)
Class Backend : Type := {
  World : Type;
  User : Type;
  Instance : Type;
  (** [InvenTree.helpers.hash_barcode] *)
  hash_barcode : Value -> string;
  (** [instance.pk] *)
  instance_pk : Instance -> Value;
  (** primary-key query on the table of a model *)
  objects_lookup : Model -> Value -> World -> Lookup Instance;
  (** [RuleSet.check_table_permission(user, table, permission)] *)
  check_table_permission : User -> string -> string -> World -> bool;
  (** [instance.assign_barcode(barcode_data=..., barcode_hash=...)] *)
  assign_barcode : Instance -> Value -> string -> World -> World;
  (** [instance.unassign_barcode()] *)
  unassign_barcode : Instance -> World -> World;
  (** [InvenTreeInternalBarcodePlugin.get_supported_barcode_models()] *)
  get_supported_barcode_models : list Model;
  (** the model classes [PurchaseOrder] and [StockLocation] *)
  PurchaseOrder : Model;
  StockLocation : Model
}.

(** A barcode plugin.  Its methods read and may change the database; they
    return [None] or a dictionary.  [scan_receive_item] is only called on
    plugins of the "supplier-barcode" mixin.  A plugin object is always
    true in [plugin.name if plugin else None]. *)
Record Plugin `{Backend} : Type := {
  name : string;
  scan : Value -> World -> option Dict * World;
  scan_receive_item :
    Value -> User -> option Instance -> option Instance -> World ->
    option Dict * World
}.

(** The plugin registry: [registry.with_mixin(mixin)] and
    [registry.with_mixin(mixin, builtin=True)]. *)
Class Registry `{Backend} : Type := {
  with_mixin : string -> option bool -> list Plugin
}.

Section Barcodes.

Context {B : Backend} {R : Registry}.

Record Request : Type := {
  data : Dict;
  user : User
}.

(** ** Calls that leave the module *)

Inductive Event : Type :=
| EScan (p : Plugin) (barcode : Value) (result : option Dict)
| EScanReceive (p : Plugin) (barcode : Value) (u : User)
    (purchase_order location : option Instance) (result : option Dict)
| EGet (m : Model) (pk : Value)
| EFilterFirst (m : Model) (pk : Value)
| ECheckPermission (u : User) (table permission : string) (granted : bool)
| EAssign (i : Instance) (barcode_data : Value) (barcode_hash : string)
| EUnassign (i : Instance).

(** A computation runs on a database and yields a result or an exception,
    the database it leaves behind, and the calls it made, in order. *)
Definition M (A : Type) : Type := World -> Res A * World * list Event.

Definition ret {A} (a : A) : M A := fun w => (Ret a, w, []).

Definition raise {A} (e : Exn) : M A := fun w => (Raise e, w, []).

Definition bind {A B} (m : M A) (k : A -> M B) : M B :=
  fun w =>
    match m w with
    | (Ret a, w1, t1) =>
        match k a w1 with
        | (r, w2, t2) => (r, w2, t1 ++ t2)
        end
    | (Raise e, w1, t1) => (Raise e, w1, t1)
    end.

(** [try: m except ...: h], where [h] tells which exceptions are caught. *)
Definition try_except {A} (m : M A) (h : Exn -> option (M A)) : M A :=
  fun w =>
    match m w with
    | (Ret a, w1, t1) => (Ret a, w1, t1)
    | (Raise e, w1, t1) =>
        match h e with
        | Some k =>
            match k w1 with
            | (r, w2, t2) => (r, w2, t1 ++ t2)
            end
        | None => (Raise e, w1, t1)
        end
    end.

Notation "'let*' x ':=' m 'in' k" := (bind m (fun x => k))
  (at level 10, x pattern, m at level 100, k at level 200).

(** [plugin.scan(barcode_data)]. *)
Definition call_scan (p : Plugin) (barcode : Value) : M (option Dict) :=
  fun w =>
    match scan p barcode w with
    | (r, w1) => (Ret r, w1, [EScan p barcode r])
    end.

(** [plugin.scan_receive_item(barcode_data, user, purchase_order=...,
    location=...)]. *)
Definition call_scan_receive_item (p : Plugin) (barcode : Value) (u : User)
    (po loc : option Instance) : M (option Dict) :=
  fun w =>
    match scan_receive_item p barcode u po loc w with
    | (r, w1) => (Ret r, w1, [EScanReceive p barcode u po loc r])
    end.

(** [model.objects.get(pk=pk)]. *)
Definition objects_get (m : Model) (pk : Value) : M Instance :=
  fun w =>
    match objects_lookup m pk w with
    | Found i => (Ret i, w, [EGet m pk])
    | Missing => (Raise (DoesNotExist m), w, [EGet m pk])
    | Malformed => (Raise ValueError, w, [EGet m pk])
    end.

(** [model.objects.filter(pk=pk).first()]. *)
Definition objects_filter_first (m : Model) (pk : Value)
  : M (option Instance) :=
  fun w =>
    match objects_lookup m pk w with
    | Found i => (Ret (Some i), w, [EFilterFirst m pk])
    | Missing => (Ret None, w, [EFilterFirst m pk])
    | Malformed => (Raise ValueError, w, [EFilterFirst m pk])
    end.

Definition call_check_table_permission (u : User) (table permission : string)
  : M bool :=
  fun w =>
    let b := check_table_permission u table permission w in
    (Ret b, w, [ECheckPermission u table permission b]).

Definition call_assign_barcode (i : Instance) (barcode_data : Value)
    (barcode_hash : string) : M unit :=
  fun w =>
    (Ret tt, assign_barcode i barcode_data barcode_hash w,
     [EAssign i barcode_data barcode_hash]).

Definition call_unassign_barcode (i : Instance) : M unit :=
  fun w => (Ret tt, unassign_barcode i w, [EUnassign i]).

(** [plugin.name if plugin else None]. *)
Definition plugin_name (plugin : option Plugin) : Value :=
  match plugin with
  | Some p => VStr (name p)
  | None => VNone
  end.

(** ** BarcodeScan.post *)

(** The [for current_plugin in plugins] loop of [BarcodeScan.post], with
    its two loop variables [plugin] and [response].  Returning without
    visiting the rest of the list is the [break]. *)
Fixpoint scan_loop (barcode_data : Value) (plugins : list Plugin)
    (plugin : option Plugin) (response : Dict) : M (option Plugin * Dict) :=
  match plugins with
  | [] => ret (plugin, response)
  | current_plugin :: rest =>
      let* result := call_scan current_plugin barcode_data in
      match result with
      | None => scan_loop barcode_data rest plugin response
      | Some result =>
          if has_key "error" result then
            if dict_is_empty response then
              scan_loop barcode_data rest (Some current_plugin) result
            else
              scan_loop barcode_data rest plugin response
          else
            ret (Some current_plugin, result)
      end
  end.

(** The three assignments after the loop. *)
Definition attach (response : Dict) (plugin : option Plugin)
    (barcode_data : Value) (barcode_hash : string) : Dict :=
  <["barcode_hash" := VStr barcode_hash]>
    (<["barcode_data" := barcode_data]>
      (<["plugin" := plugin_name plugin]> response)).

Definition BarcodeScan_post (request : Request) : M Dict :=
  let data := data request in
  let barcode_data := dict_get data "barcode" in
  if negb (truthy barcode_data) then
    raise (ValidationError
             {[ "barcode" := VStr (gettext_lazy "Missing barcode data") ]})
  else
    let plugins := with_mixin "barcode" None in
    let barcode_hash := hash_barcode barcode_data in
    let* (plugin, response) := scan_loop barcode_data plugins None ∅ in
    let response := attach response plugin barcode_data barcode_hash in
    match plugin with
    | None =>
        raise (ValidationError
                 (<["error" :=
                      VStr (gettext_lazy "No match found for barcode data")]>
                    response))
    | Some _ =>
        ret (<["success" :=
                 VStr (gettext_lazy "Match found for barcode data")]>
               response)
    end.

(** ** BarcodeAssign.post *)

(** The first loop of [BarcodeAssign.post], over the builtin plugins:
    any result that is not [None] ends the request. *)
Fixpoint assign_scan_loop (barcode_data : Value) (plugins : list Plugin)
  : M unit :=
  match plugins with
  | [] => ret tt
  | plugin :: rest =>
      let* result := call_scan plugin barcode_data in
      match result with
      | Some result =>
          raise (ValidationError
                   (<["barcode_data" := barcode_data]>
                      (<["plugin" := VStr (name plugin)]>
                         (<["error" :=
                              VStr (gettext_lazy
                                      "Barcode matches existing item")]>
                            result))))
      | None => assign_scan_loop barcode_data rest
      end
  end.

(** Django model instances are always true: [Model] defines neither
    [__bool__] nor [__len__]. *)
Definition instance_truthy (i : Instance) : bool := true.

(** The handler of [except (ValueError, model.DoesNotExist)]. *)
Definition except_lookup {A} (model : Model) (k : M A)
  : Exn -> option (M A) :=
  fun e =>
    match e with
    | ValueError => Some k
    | DoesNotExist m => if decide (m = model) then Some k else None
    | _ => None
    end.

(** The body of [if label in data] in [BarcodeAssign.post]: the whole
    [try] statement.  Every path through it returns or raises. *)
Definition assign_to_model (request : Request) (barcode_data : Value)
    (barcode_hash : string) (model : Model) (label : string) (pk : Value)
  : M Dict :=
  try_except
    (let* instance := objects_get model pk in
     let table := table_name model in
     let* granted :=
       call_check_table_permission (user request) table "change" in
     if negb granted then
       raise (PermissionDenied
                {[ "error" :=
                     VStr ("You do not have the required permissions for "
                           +:+ table) ]})
     else
       let* _ := call_assign_barcode instance barcode_data barcode_hash in
       ret (<["barcode_hash" := VStr barcode_hash]>
              (<["barcode_data" := barcode_data]>
                 (<[label := VDict {[ "pk" := instance_pk instance ]}]>
                    {[ "success" :=
                         VStr ("Assigned barcode to " +:+ label
                               +:+ " instance") ]}))))
    (except_lookup model
       (raise (ValidationError
                 {[ "error" :=
                      VStr ("No matching " +:+ label
                            +:+ " instance found in database") ]}))).

(** The loop over the supported models, with its variable
    [valid_labels]. *)
Fixpoint assign_model_loop (request : Request) (barcode_data : Value)
    (barcode_hash : string) (models : list Model)
    (valid_labels : list string) : M (Flow Dict (list string)) :=
  match models with
  | [] => ret (Completed valid_labels)
  | model :: rest =>
      let label := barcode_model_type model in
      let valid_labels := valid_labels ++ [label] in
      match data request !! label with
      | Some pk =>
          let* response :=
            assign_to_model request barcode_data barcode_hash model label pk
          in
          ret (Returned response)
      | None =>
          assign_model_loop request barcode_data barcode_hash rest
            valid_labels
      end
  end.

Definition BarcodeAssign_post (request : Request) : M Dict :=
  let data := data request in
  let barcode_data := dict_get data "barcode" in
  if negb (truthy barcode_data) then
    raise (ValidationError
             {[ "barcode" := VStr (gettext_lazy "Missing barcode data") ]})
  else
    let plugins := with_mixin "barcode" (Some true) in
    let* _ := assign_scan_loop barcode_data plugins in
    let barcode_hash := hash_barcode barcode_data in
    let* flow :=
      assign_model_loop request barcode_data barcode_hash
        get_supported_barcode_models [] in
    match flow with
    | Returned response => ret response
    | Completed valid_labels =>
        raise (ValidationError
                 {[ "error" :=
                      VStr ("Missing data: provide one of '"
                            +:+ repr_labels valid_labels +:+ "'") ]})
    end.

(** ** BarcodeUnassign.post *)

(** The labels of [supported_labels] that are keys of the request. *)
Definition matched_labels (data : Dict) (supported_labels : list string)
  : list string :=
  List.filter (fun label => has_key label data) supported_labels.

(** The body of [if label in data] in [BarcodeUnassign.post]. *)
Definition unassign_from_model (request : Request) (model : Model)
    (label : string) (pk : Value) : M Dict :=
  let* instance :=
    try_except (objects_get model pk)
      (except_lookup model
         (raise (ValidationError
                   {[ label :=
                        VStr (gettext_lazy
                                "No match found for provided value") ]})))
  in
  let table := table_name model in
  let* granted :=
    call_check_table_permission (user request) table "change" in
  if negb granted then
    raise (PermissionDenied
             {[ "error" :=
                  VStr ("You do not have the required permissions for "
                        +:+ table) ]})
  else
    let* _ := call_unassign_barcode instance in
    ret {[ "success" :=
             VStr ("Barcode unassigned from " +:+ label +:+ " instance") ]}.

(** The loop over the supported models of [BarcodeUnassign.post]. *)
Fixpoint unassign_model_loop (request : Request) (models : list Model)
  : M (Flow Dict unit) :=
  match models with
  | [] => ret (Completed tt)
  | model :: rest =>
      let label := barcode_model_type model in
      match data request !! label with
      | Some pk =>
          let* response := unassign_from_model request model label pk in
          ret (Returned response)
      | None => unassign_model_loop request rest
      end
  end.

Definition BarcodeUnassign_post (request : Request) : M Dict :=
  let supported_models := get_supported_barcode_models in
  let supported_labels := map barcode_model_type supported_models in
  let model_names := join_labels supported_labels in
  let data := data request in
  let matched_labels := matched_labels data supported_labels in
  if (length matched_labels =? 0)%nat then
    raise (ValidationError
             {[ "error" :=
                  VStr ("Missing data: Provide one of '" +:+ model_names
                        +:+ "'") ]})
  else if (1 <? length matched_labels)%nat then
    raise (ValidationError
             {[ "error" :=
                  VStr ("Multiple conflicting fields: '" +:+ model_names
                        +:+ "'") ]})
  else
    let* flow := unassign_model_loop request supported_models in
    match flow with
    | Returned response => ret response
    | Completed _ =>
        raise (ValidationError
                 {[ "error" := VStr "Could not unassign barcode" ]})
    end.

(** ** BarcodePOReceive.post *)

(** The loop over the "supplier-barcode" plugins: the loop of
    [BarcodeScan.post], calling [scan_receive_item]. *)
Fixpoint receive_loop (barcode_data : Value) (u : User)
    (purchase_order location : option Instance) (plugins : list Plugin)
    (plugin : option Plugin) (response : Dict) : M (option Plugin * Dict) :=
  match plugins with
  | [] => ret (plugin, response)
  | current_plugin :: rest =>
      let* result :=
        call_scan_receive_item current_plugin barcode_data u
          purchase_order location in
      match result with
      | None =>
          receive_loop barcode_data u purchase_order location rest
            plugin response
      | Some result =>
          if has_key "error" result then
            if dict_is_empty response then
              receive_loop barcode_data u purchase_order location rest
                (Some current_plugin) result
            else
              receive_loop barcode_data u purchase_order location rest
                plugin response
          else
            ret (Some current_plugin, result)
      end
  end.

(** [next(filter(lambda plugin: plugin.name == "InvenTreeBarcode",
    plugins))]. *)
Definition find_internal_barcode_plugin (plugins : list Plugin)
  : M Plugin :=
  match
    List.find (fun plugin => bool_decide (name plugin = "InvenTreeBarcode"))
      plugins
  with
  | Some plugin => ret plugin
  | None => raise StopIteration
  end.

(** The [purchase_order] lines of [BarcodePOReceive.post]. *)
Definition resolve_purchase_order (data : Dict) : M (option Instance) :=
  let purchase_order_pk := dict_get data "purchase_order" in
  if truthy purchase_order_pk then
    let* purchase_order :=
      objects_filter_first PurchaseOrder purchase_order_pk in
    match purchase_order with
    | Some i =>
        if negb (instance_truthy i) then
          raise (ValidationError
                   {[ "purchase_order" :=
                        VStr (gettext_lazy "Invalid purchase order") ]})
        else ret (Some i)
    | None =>
        raise (ValidationError
                 {[ "purchase_order" :=
                      VStr (gettext_lazy "Invalid purchase order") ]})
    end
  else ret None.

(** The [location] lines of [BarcodePOReceive.post]. *)
Definition resolve_location (data : Dict) : M (option Instance) :=
  let location_pk := dict_get data "location" in
  if truthy location_pk then
    let* location := objects_get StockLocation location_pk in
    if negb (instance_truthy location) then
      raise (ValidationError
               {[ "location" :=
                    VStr (gettext_lazy "Invalid stock location") ]})
    else ret (Some location)
  else ret None.

Definition BarcodePOReceive_post (request : Request) : M Dict :=
  let data := data request in
  let barcode_data := dict_get data "barcode" in
  if negb (truthy barcode_data) then
    raise (ValidationError
             {[ "barcode" := VStr (gettext_lazy "Missing barcode data") ]})
  else
    let* purchase_order := resolve_purchase_order data in
    let* location := resolve_location data in
    let plugins := with_mixin "barcode" None in
    let* internal_barcode_plugin := find_internal_barcode_plugin plugins in
    let* internal := call_scan internal_barcode_plugin barcode_data in
    if truthy_result internal then
      raise (ValidationError
               {[ "error" :=
                    VStr (gettext_lazy "Item has already been received") ]})
    else
      let plugins := with_mixin "supplier-barcode" None in
      let* (plugin, response) :=
        receive_loop barcode_data (user request) purchase_order location
          plugins None ∅ in
      let response :=
        attach response plugin barcode_data (hash_barcode barcode_data) in
      match plugin with
      | None =>
          raise (ValidationError
                   (<["error" :=
                        VStr (gettext_lazy "No match for supplier barcode")]>
                      response))
      | Some _ =>
          if has_key "error" response then
            raise (ValidationError response)
          else ret response
      end.

(** ** Vocabulary for the statements *)

(** A plugin result that is a successful match: a dictionary without an
    ["error"] key. *)
Definition is_match (r : option Dict) : bool :=
  match r with
  | Some d => negb (has_key "error" d)
  | None => false
  end.

(** A plugin result that is an error: a dictionary with an ["error"] key. *)
Definition is_error (r : option Dict) : bool :=
  match r with
  | Some d => has_key "error" d
  | None => false
  end.

(** Calling [scan] on every plugin of a list in turn, with no early exit:
    what each call returns, and the database after the last one. *)
Fixpoint scan_all (barcode : Value) (plugins : list Plugin) (w : World)
  : list (option Dict) * World :=
  match plugins with
  | [] => ([], w)
  | p :: rest =>
      match scan p barcode w with
      | (r, w1) =>
          match scan_all barcode rest w1 with
          | (rs, w2) => (r :: rs, w2)
          end
      end
  end.

(** The trace of those calls. *)
Definition scan_events (barcode : Value) (plugins : list Plugin)
    (results : list (option Dict)) : list Event :=
  zip_with (fun p r => EScan p barcode r) plugins results.

(** The plugins a trace calls into, in order. *)
Definition called (trace : list Event) : list Plugin :=
  flat_map
    (fun e =>
       match e with
       | EScan p _ _ => [p]
       | EScanReceive p _ _ _ _ _ => [p]
       | _ => []
       end)
    trace.

(** The events that change a barcode binding. *)
Definition is_mutation (e : Event) : bool :=
  match e with
  | EAssign _ _ _ => true
  | EUnassign _ => true
  | _ => false
  end.

(** The calls of [scan_receive_item]. *)
Definition is_scan_receive (e : Event) : bool :=
  match e with
  | EScanReceive _ _ _ _ _ _ => true
  | _ => false
  end.

(** The events that touch the database or the permission rules from
    [BarcodeUnassign.post]: lookups, permission checks, mutations. *)
Definition is_storage_access (e : Event) : bool :=
  match e with
  | EGet _ _ => true
  | EFilterFirst _ _ => true
  | ECheckPermission _ _ _ _ => true
  | EAssign _ _ _ => true
  | EUnassign _ => true
  | _ => false
  end.

(** A supplier plugin seen as a scan plugin: its [scan] is
    [scan_receive_item] with the user, purchase order and location of the
    request filled in. *)
Definition receiving (u : User) (purchase_order location : option Instance)
    (p : Plugin) : Plugin :=
  {| name := name p;
     scan := fun barcode w =>
       scan_receive_item p barcode u purchase_order location w;
     scan_receive_item := scan_receive_item p |}.

(** The calls of [scan_receive_item] of a trace, read as calls of [scan]
    on those plugins. *)
Definition as_scan_event (e : Event) : Event :=
  match e with
  | EScanReceive p barcode u purchase_order location result =>
      EScan (receiving u purchase_order location p) barcode result
  | _ => e
  end.

(** Calling [scan_receive_item] on every plugin of a list in turn, with no
    early exit: what each call returns, and the database after the last
    one. *)
Fixpoint receive_all (barcode : Value) (u : User)
    (purchase_order location : option Instance) (plugins : list Plugin)
    (w : World) : list (option Dict) * World :=
  match plugins with
  | [] => ([], w)
  | p :: rest =>
      match scan_receive_item p barcode u purchase_order location w with
      | (r, w1) =>
          match receive_all barcode u purchase_order location rest w1 with
          | (rs, w2) => (r :: rs, w2)
          end
      end
  end.

(** The trace of those calls. *)
Definition receive_events (barcode : Value) (u : User)
    (purchase_order location : option Instance) (plugins : list Plugin)
    (results : list (option Dict)) : list Event :=
  zip_with (fun p r => EScanReceive p barcode u purchase_order location r)
    plugins results.


(** A request to [BarcodePOReceive.post] gets as far as the supplier
    plugins: its barcode is not empty, its purchase order and location
    (when given) are found, and the plugin named "InvenTreeBarcode" has
    nothing to say about the barcode.  [w0] is the database after that
    plugin's [scan], and [trace] the calls made up to there. *)
Definition reaches_suppliers (request : Request) (w : World)
    (purchase_order location : option Instance) (w0 : World)
    (trace : list Event) : Prop :=
  let barcode_data := dict_get (data request) "barcode" in
  truthy barcode_data = true
  /\ exists t1 t2 internal r0,
      resolve_purchase_order (data request) w = (Ret purchase_order, w, t1)
      /\ resolve_location (data request) w = (Ret location, w, t2)
      /\ List.find (fun p => bool_decide (name p = "InvenTreeBarcode"))
           (with_mixin "barcode" None) = Some internal
      /\ scan internal barcode_data w = (r0, w0)
      /\ truthy_result r0 = false
      /\ trace = t1 ++ t2 ++ [EScan internal barcode_data r0].

End Barcodes.

(** * A small installation

    A concrete database, user model and set of plugins, on which the
    endpoints can be run. *)

Module Demo.

Definition part : Model :=
  {| barcode_model_type := "part"; app_label := "part"; model_name := "part" |}.

Definition stockitem : Model :=
  {| barcode_model_type := "stockitem"; app_label := "stock";
     model_name := "stockitem" |}.

Definition purchaseorder : Model :=
  {| barcode_model_type := "purchaseorder"; app_label := "order";
     model_name := "purchaseorder" |}.

Definition stocklocation : Model :=
  {| barcode_model_type := "stocklocation"; app_label := "stock";
     model_name := "stocklocation" |}.

(** The database: the primary keys that are rows, and the custom barcodes
    bound so far (primary key, hash). *)
Record Db : Type := {
  rows : list Z;
  bindings : list (Z * string)
}.

Definition lookup (m : Model) (pk : Value) (db : Db) : Lookup Z :=
  match pk with
  | VInt z => if bool_decide (z ∈ rows db) then Found z else Missing
  | _ => Malformed
  end.

Definition bind_barcode (i : Z) (barcode : Value) (hash : string) (db : Db)
  : Db :=
  {| rows := rows db; bindings := (i, hash) :: bindings db |}.

Definition unbind_barcode (i : Z) (db : Db) : Db :=
  {| rows := rows db;
     bindings := List.filter (fun b => negb (fst b =? i)%Z) (bindings db) |}.

Definition md5 (barcode : Value) : string :=
  match barcode with
  | VStr s => "md5:" +:+ s
  | _ => "md5:"
  end.

(** A user is the answer to "may this user change tables?". *)
Definition backend : Backend :=
  {| World := Db;
     User := bool;
     Instance := Z;
     hash_barcode := md5;
     instance_pk := VInt;
     objects_lookup := lookup;
     check_table_permission := fun u _ _ _ => u;
     assign_barcode := bind_barcode;
     unassign_barcode := unbind_barcode;
     get_supported_barcode_models := [part; stockitem];
     PurchaseOrder := purchaseorder;
     StockLocation := stocklocation |}.

Definition is_str (v : Value) (s : string) : bool :=
  match v with
  | VStr t => String.eqb t s
  | _ => false
  end.

(** A plugin that answers from the barcode alone. *)
Definition answers (nm : string) (f : Value -> option Dict)
  : @Plugin backend :=
  {| name := nm;
     scan := fun barcode db => (f barcode, db);
     scan_receive_item := fun barcode _ _ _ db => (f barcode, db) |}.

(** The internal plugin: it knows the barcode of stock item 7. *)
Definition internal : @Plugin backend :=
  answers "InvenTreeBarcode"
    (fun barcode =>
       if is_str barcode "INV-7" then
         Some {[ "stockitem" := VDict {[ "pk" := VInt 7 ]} ]}
       else None).

(** A plugin that reports an error on every barcode. *)
Definition broken : @Plugin backend :=
  answers "Broken" (fun _ => Some {[ "error" := VStr "Unreadable barcode" ]}).

(** A supplier plugin; it also claims the barcode of stock item 7. *)
Definition vendor : @Plugin backend :=
  answers "DigiKey"
    (fun barcode =>
       if is_str barcode "DK-1" || is_str barcode "INV-7" then
         Some {[ "supplierpart" := VDict {[ "pk" := VInt 42 ]} ]}
       else None).

(** A plugin that never answers. *)
Definition silent : @Plugin backend :=
  answers "Silent" (fun _ => None).

(** A plugin under the internal plugin's name whose answer is the empty
    dictionary. *)
Definition hollow : @Plugin backend :=
  answers "InvenTreeBarcode" (fun _ => Some ∅).

(** A registry with the given "barcode" chain, builtin "barcode" chain and
    "supplier-barcode" chain. *)
Definition registry (chain builtin supplier : list (@Plugin backend))
  : @Registry backend :=
  {| with_mixin := fun mixin only_builtin =>
       if String.eqb mixin "barcode" then
         match only_builtin with
         | Some true => builtin
         | _ => chain
         end
       else if String.eqb mixin "supplier-barcode" then supplier
       else [] |}.

Definition db0 : Db := {| rows := [7; 42]%Z; bindings := [] |}.

Definition request (body : Dict) (may_change : bool) : @Request backend :=
  @Build_Request backend body may_change.

(** A second plugin that reports an error on every barcode. *)
Definition noisy : @Plugin backend :=
  answers "Noisy" (fun _ => Some {[ "error" := VStr "Checksum mismatch" ]}).

End Demo.

(** * Properties *)

Section Properties.

Context {B : Backend} {R : Registry}.

Implicit Types (w : World) (d : Dict) (p : Plugin) (barcode : Value).

(** ** Dictionaries *)

Lemma dict_is_empty_true d : dict_is_empty d = true <-> d = ∅.
Proof.
  unfold dict_is_empty. rewrite <- map_to_list_empty_iff.
  destruct (map_to_list d); split; congruence.
Qed.

Lemma dict_is_empty_empty : dict_is_empty (∅ : Dict) = true.
Proof. by apply dict_is_empty_true. Qed.

Lemma has_key_nonempty k d : has_key k d = true -> dict_is_empty d = false.
Proof.
  unfold has_key. intros Hk.
  destruct (dict_is_empty d) eqn:He; [|done].
  apply dict_is_empty_true in He. subst d.
  by rewrite lookup_empty in Hk.
Qed.

(** ** The scan loop *)

(** A prefix of plugins that all decline (no answer, or an error) is walked
    through, whatever the loop variables hold, and the first match after it
    ends the loop. *)
Lemma scan_loop_first_match barcode pre h post r :
  forall plugin response w rs w1 w2,
    scan_all barcode pre w = (rs, w1) ->
    Forall (fun r => is_match r = false) rs ->
    scan h barcode w1 = (Some r, w2) ->
    has_key "error" r = false ->
    scan_loop barcode (pre ++ h :: post) plugin response w =
      (Ret (Some h, r), w2,
       scan_events barcode pre rs ++ [EScan h barcode (Some r)]).
Proof.
  induction pre as [|p pre IH]; intros plugin response w rs w1 w2 Hall Hrs Hh Hr.
  - simpl in Hall. injection Hall as <- <-.
    simpl. unfold bind, call_scan. rewrite Hh. simpl. rewrite Hr. done.
  - simpl in Hall.
    destruct (scan p barcode w) as [r0 w'] eqn:Hp.
    destruct (scan_all barcode pre w') as [rs' w''] eqn:Hrest.
    injection Hall as <- <-.
    apply Forall_cons in Hrs as [Hr0 Hrs].
    specialize (IH) with (1 := Hrest) (2 := Hrs) (3 := Hh) (4 := Hr).
    simpl. unfold bind at 1, call_scan. rewrite Hp. simpl.
    destruct r0 as [d0|]; simpl in Hr0.
    + apply negb_false_iff in Hr0. rewrite Hr0.
      destruct (dict_is_empty response); by rewrite IH.
    + by rewrite IH.
Qed.


(** Once an answer is recorded, plugins that decline leave the loop
    variables alone: an earlier error is kept ("first error wins"). *)
Lemma scan_loop_declined_keeps barcode plugins :
  forall plugin response w rs w1,
    dict_is_empty response = false ->
    scan_all barcode plugins w = (rs, w1) ->
    Forall (fun r => is_match r = false) rs ->
    scan_loop barcode plugins plugin response w =
      (Ret (plugin, response), w1, scan_events barcode plugins rs).
Proof.
  induction plugins as [|p plugins IH];
    intros plugin response w rs w1 Hne Hall Hrs.
  - simpl in Hall. by injection Hall as <- <-.
  - simpl in Hall.
    destruct (scan p barcode w) as [r0 w'] eqn:Hp.
    destruct (scan_all barcode plugins w') as [rs' w''] eqn:Hrest.
    injection Hall as <- <-.
    apply Forall_cons in Hrs as [Hr0 Hrs].
    simpl. unfold bind at 1, call_scan. rewrite Hp. simpl.
    destruct r0 as [d0|]; simpl in Hr0.
    + apply negb_false_iff in Hr0. rewrite Hr0, Hne.
      by rewrite (IH plugin response _ _ _ Hne Hrest Hrs).
    + by rewrite (IH plugin response _ _ _ Hne Hrest Hrs).
Qed.

Lemma scan_all_length barcode plugins :
  forall w rs w1,
    scan_all barcode plugins w = (rs, w1) -> length rs = length plugins.
Proof.
  induction plugins as [|p plugins IH]; intros w rs w1 Hall; simpl in Hall.
  - by injection Hall as <- <-.
  - destruct (scan p barcode w) as [r0 w'].
    destruct (scan_all barcode plugins w') as [rs' w''] eqn:Hrest.
    injection Hall as <- <-. simpl. f_equal. eauto.
Qed.

Lemma called_app (t1 t2 : list Event) : called (t1 ++ t2) = called t1 ++ called t2.
Proof. unfold called. apply flat_map_app. Qed.

Lemma called_scan_events barcode plugins :
  forall rs, length rs = length plugins ->
    called (scan_events barcode plugins rs) = plugins.
Proof.
  induction plugins as [|p plugins IH]; intros [|r rs] Hlen;
    simpl in *; try done.
  f_equal. apply IH. lia.
Qed.


(** ** BarcodeScan.post *)

(** C2.  For a request with a non-empty barcode, if the plugin [h] of the
    "barcode" chain returns a match and every plugin before it declined
    (so [h] is the earliest that matches), the response is [h]'s result
    with the plugin name, the barcode, its hash and the success message
    attached, and the plugins called are exactly those up to [h]: none of
    the plugins after [h] is invoked. *)
Theorem scan_first_match_wins request pre h post w rs w1 r w2 :
  let barcode_data := dict_get (data request) "barcode" in
  truthy barcode_data = true ->
  with_mixin "barcode" None = pre ++ h :: post ->
  scan_all barcode_data pre w = (rs, w1) ->
  Forall (fun r => is_match r = false) rs ->
  scan h barcode_data w1 = (Some r, w2) ->
  has_key "error" r = false ->
  exists trace,
    BarcodeScan_post request w =
      (Ret (<["success" := VStr "Match found for barcode data"]>
              (<["barcode_hash" := VStr (hash_barcode barcode_data)]>
                 (<["barcode_data" := barcode_data]>
                    (<["plugin" := VStr (name h)]> r)))),
       w2, trace)
    /\ trace = scan_events barcode_data pre rs ++ [EScan h barcode_data (Some r)]
    /\ called trace = pre ++ [h].
Proof.
  intros barcode_data Htruthy Hchain Hall Hrs Hh Hr.
  eexists. split; [|split; [reflexivity|]].
  - unfold BarcodeScan_post. fold barcode_data. rewrite Htruthy, Hchain. simpl.
    unfold bind.
    rewrite (scan_loop_first_match _ _ _ _ _ _ _ _ _ _ _ Hall Hrs Hh Hr).
    simpl. by rewrite app_nil_r.
  - rewrite called_app, called_scan_events; [done|].
    by eapply scan_all_length.
Qed.



(** When every plugin declines and the first answer is an error, the loop
    ends with that error and its plugin in the loop variables. *)
Lemma scan_loop_first_error barcode pre h post e :
  forall w rs w1 w2 rs' w3,
    scan_all barcode pre w = (rs, w1) ->
    Forall (fun r => r = None) rs ->
    scan h barcode w1 = (Some e, w2) ->
    has_key "error" e = true ->
    scan_all barcode post w2 = (rs', w3) ->
    Forall (fun r => is_match r = false) rs' ->
    scan_loop barcode (pre ++ h :: post) None ∅ w =
      (Ret (Some h, e), w3,
       scan_events barcode pre rs
         ++ EScan h barcode (Some e) :: scan_events barcode post rs').
Proof.
  induction pre as [|p pre IH]; intros w rs w1 w2 rs' w3 Hall Hrs Hh He Hpost Hrs'.
  - simpl in Hall. injection Hall as <- <-.
    simpl. unfold bind at 1, call_scan. rewrite Hh. simpl.
    rewrite He, dict_is_empty_empty.
    by rewrite (scan_loop_declined_keeps _ _ _ _ _ _ _
                  (has_key_nonempty _ _ He) Hpost Hrs').
  - simpl in Hall.
    destruct (scan p barcode w) as [r0 w'] eqn:Hp.
    destruct (scan_all barcode pre w') as [rs0 w''] eqn:Hrest.
    injection Hall as <- <-.
    apply Forall_cons in Hrs as [-> Hrs].
    simpl. unfold bind at 1, call_scan. rewrite Hp. simpl.
    by rewrite (IH _ _ _ _ _ _ Hrest Hrs Hh He Hpost Hrs').
Qed.

(** What [BarcodeScan.post] does when no plugin matches and some plugin
    reports an error: it returns a response that carries the success
    message next to the error. *)
Lemma scan_error_only_returns_response request pre h post e w rs w1 w2 rs' w3 :
  let barcode_data := dict_get (data request) "barcode" in
  truthy barcode_data = true ->
  with_mixin "barcode" None = pre ++ h :: post ->
  scan_all barcode_data pre w = (rs, w1) ->
  Forall (fun r => r = None) rs ->
  scan h barcode_data w1 = (Some e, w2) ->
  has_key "error" e = true ->
  scan_all barcode_data post w2 = (rs', w3) ->
  Forall (fun r => is_match r = false) rs' ->
  BarcodeScan_post request w =
    (Ret (<["success" := VStr "Match found for barcode data"]>
            (<["barcode_hash" := VStr (hash_barcode barcode_data)]>
               (<["barcode_data" := barcode_data]>
                  (<["plugin" := VStr (name h)]> e)))),
     w3,
     scan_events barcode_data pre rs
       ++ EScan h barcode_data (Some e) :: scan_events barcode_data post rs').
Proof.
  intros barcode_data Htruthy Hchain Hall Hrs Hh He Hpost Hrs'.
  unfold BarcodeScan_post. fold barcode_data. rewrite Htruthy, Hchain. simpl.
  unfold bind.
  rewrite (scan_loop_first_error _ _ _ _ _ _ _ _ _ _ _ Hall Hrs Hh He Hpost Hrs').
  simpl. by rewrite app_nil_r.
Qed.

(** ** BarcodeAssign.post *)

Lemma scan_events_no_mutation barcode plugins rs :
  Forall (fun e => is_mutation e = false) (scan_events barcode plugins rs).
Proof.
  unfold scan_events. revert rs.
  induction plugins as [|p plugins IH]; intros [|r rs]; simpl;
    constructor; auto.
Qed.

Lemma assign_scan_loop_all_absent barcode plugins :
  forall w rs w1,
    scan_all barcode plugins w = (rs, w1) ->
    Forall (fun r => r = None) rs ->
    assign_scan_loop barcode plugins w =
      (Ret tt, w1, scan_events barcode plugins rs).
Proof.
  induction plugins as [|p plugins IH]; intros w rs w1 Hall Hrs.
  - simpl in Hall. by injection Hall as <- <-.
  - simpl in Hall.
    destruct (scan p barcode w) as [r0 w'] eqn:Hp.
    destruct (scan_all barcode plugins w') as [rs' w''] eqn:Hrest.
    injection Hall as <- <-.
    apply Forall_cons in Hrs as [-> Hrs].
    simpl. unfold bind, call_scan. rewrite Hp. simpl.
    by rewrite (IH _ _ _ Hrest Hrs).
Qed.

Lemma assign_scan_loop_first_answer barcode pre h post r :
  forall w rs w1 w2,
    scan_all barcode pre w = (rs, w1) ->
    Forall (fun r => r = None) rs ->
    scan h barcode w1 = (Some r, w2) ->
    assign_scan_loop barcode (pre ++ h :: post) w =
      (Raise (ValidationError
                (<["barcode_data" := barcode]>
                   (<["plugin" := VStr (name h)]>
                      (<["error" := VStr "Barcode matches existing item"]>
                         r)))),
       w2, scan_events barcode pre rs ++ [EScan h barcode (Some r)]).
Proof.
  induction pre as [|p pre IH]; intros w rs w1 w2 Hall Hrs Hh.
  - simpl in Hall. injection Hall as <- <-.
    simpl. unfold bind, call_scan. rewrite Hh. done.
  - simpl in Hall.
    destruct (scan p barcode w) as [r0 w'] eqn:Hp.
    destruct (scan_all barcode pre w') as [rs' w''] eqn:Hrest.
    injection Hall as <- <-.
    apply Forall_cons in Hrs as [-> Hrs].
    simpl. unfold bind at 1, call_scan. rewrite Hp. simpl.
    by rewrite (IH _ _ _ _ Hrest Hrs Hh).
Qed.

(** C4.  For a request with a non-empty barcode, if some builtin plugin
    of the "barcode" chain answers it ([h], the first that does),
    [BarcodeAssign.post] fails with the validation error "Barcode matches
    existing item", naming [h] as the plugin, whatever else the request
    holds (a valid label and primary key included); the calls made are the
    scans up to [h], so no barcode is assigned. *)
Theorem assign_rejects_known_barcode request pre h post w rs w1 r w2 :
  let barcode_data := dict_get (data request) "barcode" in
  truthy barcode_data = true ->
  with_mixin "barcode" (Some true) = pre ++ h :: post ->
  scan_all barcode_data pre w = (rs, w1) ->
  Forall (fun r => r = None) rs ->
  scan h barcode_data w1 = (Some r, w2) ->
  exists trace,
    BarcodeAssign_post request w =
      (Raise (ValidationError
                (<["barcode_data" := barcode_data]>
                   (<["plugin" := VStr (name h)]>
                      (<["error" := VStr "Barcode matches existing item"]>
                         r)))),
       w2, trace)
    /\ trace = scan_events barcode_data pre rs ++ [EScan h barcode_data (Some r)]
    /\ Forall (fun e => is_mutation e = false) trace.
Proof.
  intros barcode_data Htruthy Hchain Hall Hrs Hh.
  eexists. split; [|split; [reflexivity|]].
  - unfold BarcodeAssign_post. fold barcode_data.
    rewrite Htruthy, Hchain. simpl. unfold bind at 1.
    by rewrite (assign_scan_loop_first_answer _ _ _ _ _ _ _ _ _ Hall Hrs Hh).
  - apply Forall_app. split; [apply scan_events_no_mutation|].
    by repeat constructor.
Qed.

(** The model loop skips the models whose label is not in the request and
    hands the first one whose label is there to [assign_to_model]. *)
Lemma assign_model_loop_first_label request barcode hash pre model post pk :
  forall valid_labels w,
    Forall (fun m => data request !! barcode_model_type m = None) pre ->
    data request !! barcode_model_type model = Some pk ->
    assign_model_loop request barcode hash (pre ++ model :: post)
      valid_labels w =
    bind (assign_to_model request barcode hash model
            (barcode_model_type model) pk)
         (fun response => ret (Returned response)) w.
Proof.
  induction pre as [|m pre IH]; intros valid_labels w Hpre Hpk; simpl.
  - by rewrite Hpk.
  - apply Forall_cons in Hpre as [-> Hpre]. by apply IH.
Qed.

Lemma assign_to_model_denied request barcode hash model label pk instance w :
  objects_lookup model pk w = Found instance ->
  check_table_permission (user request) (table_name model) "change" w = false ->
  assign_to_model request barcode hash model label pk w =
    (Raise (PermissionDenied
              {[ "error" :=
                   VStr ("You do not have the required permissions for "
                         +:+ table_name model) ]}),
     w,
     [EGet model pk;
      ECheckPermission (user request) (table_name model) "change" false]).
Proof.
  intros Hfound Hperm.
  unfold assign_to_model, try_except, bind, objects_get,
    call_check_table_permission.
  rewrite Hfound, Hperm. done.
Qed.

Lemma assign_to_model_missing request barcode hash model label pk w :
  objects_lookup model pk w = Missing ->
  assign_to_model request barcode hash model label pk w =
    (Raise (ValidationError
              {[ "error" :=
                   VStr ("No matching " +:+ label
                         +:+ " instance found in database") ]}),
     w, [EGet model pk]).
Proof.
  intros Hmissing.
  unfold assign_to_model, try_except, bind, objects_get.
  rewrite Hmissing. simpl. rewrite decide_True by done. done.
Qed.

(** ** BarcodeUnassign.post *)

Lemma unassign_model_loop_first_label request pre model post pk :
  forall w,
    Forall (fun m => data request !! barcode_model_type m = None) pre ->
    data request !! barcode_model_type model = Some pk ->
    unassign_model_loop request (pre ++ model :: post) w =
    bind (unassign_from_model request model (barcode_model_type model) pk)
         (fun response => ret (Returned response)) w.
Proof.
  induction pre as [|m pre IH]; intros w Hpre Hpk; simpl.
  - by rewrite Hpk.
  - apply Forall_cons in Hpre as [-> Hpre]. by apply IH.
Qed.

Lemma unassign_from_model_denied request model label pk instance w :
  objects_lookup model pk w = Found instance ->
  check_table_permission (user request) (table_name model) "change" w = false ->
  unassign_from_model request model label pk w =
    (Raise (PermissionDenied
              {[ "error" :=
                   VStr ("You do not have the required permissions for "
                         +:+ table_name model) ]}),
     w,
     [EGet model pk;
      ECheckPermission (user request) (table_name model) "change" false]).
Proof.
  intros Hfound Hperm.
  unfold unassign_from_model, try_except, bind, objects_get,
    call_check_table_permission.
  rewrite Hfound, Hperm. done.
Qed.

Lemma unassign_from_model_missing request model label pk w :
  objects_lookup model pk w = Missing ->
  unassign_from_model request model label pk w =
    (Raise (ValidationError
              {[ label := VStr "No match found for provided value" ]}),
     w, [EGet model pk]).
Proof.
  intros Hmissing.
  unfold unassign_from_model, try_except, bind, objects_get.
  rewrite Hmissing. simpl. rewrite decide_True by done. done.
Qed.



(** When the labels that matched are exactly the label of [model], the
    models before [model] in the list have labels that are not in the
    request. *)
Lemma matched_labels_single (data : Dict) pre (model : Model) post :
  matched_labels data (map barcode_model_type (pre ++ model :: post))
    = [barcode_model_type model] ->
  is_Some (data !! barcode_model_type model) ->
  Forall (fun m => data !! barcode_model_type m = None) pre.
Proof.
  unfold matched_labels. rewrite map_app, List.filter_app. simpl.
  intros Hmatched [pk Hpk]. unfold has_key at 2 in Hmatched.
  rewrite Hpk in Hmatched.
  destruct (List.filter _ (map barcode_model_type pre)) as [|l ls] eqn:Hpre.
  - clear Hmatched. induction pre as [|m pre IH]; [constructor|].
    simpl in Hpre. unfold has_key at 1 in Hpre.
    destruct (data !! barcode_model_type m) eqn:Hm; [done|].
    constructor; auto.
  - simpl in Hmatched. injection Hmatched as _ Hnil.
    by destruct ls.
Qed.

Lemma matched_labels_two (data : Dict) (labels : list string) l1 l2 :
  l1 <> l2 -> l1 ∈ labels -> l2 ∈ labels ->
  is_Some (data !! l1) -> is_Some (data !! l2) ->
  (2 <= length (matched_labels data labels))%nat.
Proof.
  intros Hne H1 H2 [v1 Hv1] [v2 Hv2].
  assert (Hin : forall l v, l ∈ labels -> data !! l = Some v ->
                            l ∈ matched_labels data labels).
  { intros l v Hl Hv. apply list_elem_of_In, filter_In.
    split; [by apply list_elem_of_In|]. unfold has_key. by rewrite Hv. }
  pose proof (Hin _ _ H1 Hv1) as M1. pose proof (Hin _ _ H2 Hv2) as M2.
  destruct (matched_labels data labels) as [|a [|b rest]]; simpl; [| |lia].
  - by apply elem_of_nil in M1.
  - apply list_elem_of_singleton in M1, M2. congruence.
Qed.

Lemma matched_labels_none (data : Dict) (labels : list string) :
  (forall l, l ∈ labels -> data !! l = None) ->
  matched_labels data labels = [].
Proof.
  induction labels as [|l labels IH]; intros Hnone; simpl; [done|].
  unfold has_key. rewrite (Hnone l) by left.
  apply IH. intros l' Hl'. apply Hnone. by right.
Qed.

(** C7.  A request to [BarcodeUnassign.post] in which two different
    supported labels are present fails with the validation error
    "Multiple conflicting fields: ...", and one in which no supported label
    is present fails with "Missing data: Provide one of ..." followed by
    the supported labels; in both cases nothing has been called: no lookup,
    no permission check, no mutation, and the database is as it was. *)
Theorem unassign_label_count_checked request w :
  let labels := map barcode_model_type get_supported_barcode_models in
  (forall l1 l2,
      l1 <> l2 -> l1 ∈ labels -> l2 ∈ labels ->
      is_Some (data request !! l1) -> is_Some (data request !! l2) ->
      BarcodeUnassign_post request w =
        (Raise (ValidationError
                  {[ "error" :=
                       VStr ("Multiple conflicting fields: '"
                             +:+ join_labels labels +:+ "'") ]}),
         w, []))
  /\ ((forall l, l ∈ labels -> data request !! l = None) ->
      BarcodeUnassign_post request w =
        (Raise (ValidationError
                  {[ "error" :=
                       VStr ("Missing data: Provide one of '"
                             +:+ join_labels labels +:+ "'") ]}),
         w, [])).
Proof.
  intros labels. split.
  - intros l1 l2 Hne H1 H2 Hd1 Hd2.
    pose proof (matched_labels_two _ _ _ _ Hne H1 H2 Hd1 Hd2) as Hlen.
    unfold BarcodeUnassign_post. fold labels.
    destruct (Nat.eqb_spec (length (matched_labels (data request) labels)) 0)
      as [Hz|_]; [lia|].
    destruct (Nat.ltb_spec 1 (length (matched_labels (data request) labels)))
      as [_|Hle]; [done|lia].
  - intros Hnone.
    unfold BarcodeUnassign_post. fold labels.
    by rewrite (matched_labels_none _ _ Hnone).
Qed.


(** C6, as the code has it.  When the entity named by the request exists
    and its user lacks the "change" permission on the model's table, both
    [BarcodeAssign.post] (for a non-empty barcode no builtin plugin
    answers, on the first supported label present) and
    [BarcodeUnassign.post] (for the one supported label present) fail with
    a permission error naming the table; the entity was looked up first,
    and no barcode is assigned or unassigned. *)
Theorem change_permission_checked_on_found_entity model pk instance u w :
  objects_lookup model pk w = Found instance ->
  check_table_permission u (table_name model) "change" w = false ->
  let denied : Res Dict :=
    Raise (PermissionDenied
             {[ "error" :=
                  VStr ("You do not have the required permissions for "
                        +:+ table_name model) ]}) in
  let checks :=
    [EGet model pk; ECheckPermission u (table_name model) "change" false] in
  (forall request pre post w0 rs,
      user request = u ->
      truthy (dict_get (data request) "barcode") = true ->
      scan_all (dict_get (data request) "barcode")
        (with_mixin "barcode" (Some true)) w0 = (rs, w) ->
      Forall (fun r => r = None) rs ->
      get_supported_barcode_models = pre ++ model :: post ->
      Forall (fun m => data request !! barcode_model_type m = None) pre ->
      data request !! barcode_model_type model = Some pk ->
      exists trace,
        BarcodeAssign_post request w0 = (denied, w, trace)
        /\ trace = scan_events (dict_get (data request) "barcode")
                     (with_mixin "barcode" (Some true)) rs ++ checks
        /\ Forall (fun e => is_mutation e = false) trace)
  /\ (forall request pre post,
      user request = u ->
      get_supported_barcode_models = pre ++ model :: post ->
      matched_labels (data request)
        (map barcode_model_type get_supported_barcode_models)
        = [barcode_model_type model] ->
      data request !! barcode_model_type model = Some pk ->
      BarcodeUnassign_post request w = (denied, w, checks)).
Proof.
  intros Hfound Hperm denied checks. split.
  - intros request pre post w0 rs <- Htruthy Hall Hrs Hmodels Hpre Hpk.
    eexists. split; [|split; [reflexivity|]].
    + unfold BarcodeAssign_post. rewrite Htruthy. simpl.
      unfold bind at 1.
      rewrite (assign_scan_loop_all_absent _ _ _ _ _ Hall Hrs).
      unfold bind at 1. rewrite Hmodels.
      rewrite (assign_model_loop_first_label _ _ _ _ _ _ _ _ _ Hpre Hpk).
      unfold bind at 1.
      by rewrite (assign_to_model_denied _ _ _ _ _ _ _ _ Hfound Hperm).
    + apply Forall_app. split; [apply scan_events_no_mutation|].
      by repeat constructor.
  - intros request pre post <- Hmodels Hmatched Hpk.
    assert (Hpre : Forall (fun m => data request !! barcode_model_type m = None)
                     pre).
    { eapply matched_labels_single; [|by eexists].
      rewrite <- Hmodels. exact Hmatched. }
    unfold BarcodeUnassign_post. rewrite Hmatched. simpl.
    unfold bind at 1. rewrite Hmodels.
    rewrite (unassign_model_loop_first_label _ _ _ _ _ _ Hpre Hpk).
    unfold bind at 1.
    by rewrite (unassign_from_model_denied _ _ _ _ _ _ Hfound Hperm).
Qed.

(** ** BarcodePOReceive.post *)

(** The two lookups before the plugins are called only read the
    database, and call no plugin. *)
Lemma resolve_purchase_order_reads (data : Dict) w res w1 trace :
  resolve_purchase_order data w = (res, w1, trace) ->
  w1 = w /\ called trace = []
  /\ Forall (fun e => is_scan_receive e = false) trace.
Proof.
  unfold resolve_purchase_order, bind, objects_filter_first.
  destruct (truthy (dict_get data "purchase_order")).
  - destruct (objects_lookup PurchaseOrder _ w); simpl;
      intros [= <- <- <-]; repeat split; by repeat constructor.
  - intros [= <- <- <-]. repeat split; by repeat constructor.
Qed.

Lemma resolve_location_reads (data : Dict) w res w1 trace :
  resolve_location data w = (res, w1, trace) ->
  w1 = w /\ called trace = []
  /\ Forall (fun e => is_scan_receive e = false) trace.
Proof.
  unfold resolve_location, bind, objects_get.
  destruct (truthy (dict_get data "location")).
  - destruct (objects_lookup StockLocation _ w); simpl;
      intros [= <- <- <-]; repeat split; by repeat constructor.
  - intros [= <- <- <-]. repeat split; by repeat constructor.
Qed.

(** C5, as the code has it.  For a request with a non-empty barcode whose
    purchase order and location (when given) are found, if the plugin
    named "InvenTreeBarcode" answers the barcode with a non-empty result,
    [BarcodePOReceive.post] fails with the validation error "Item has
    already been received"; the only plugin call is that [scan], so
    [scan_receive_item] is called on no plugin. *)
Theorem receive_rejects_known_item request w po t1 loc t2 h d w1 :
  let barcode_data := dict_get (data request) "barcode" in
  truthy barcode_data = true ->
  resolve_purchase_order (data request) w = (Ret po, w, t1) ->
  resolve_location (data request) w = (Ret loc, w, t2) ->
  List.find (fun p => bool_decide (name p = "InvenTreeBarcode"))
    (with_mixin "barcode" None) = Some h ->
  scan h barcode_data w = (Some d, w1) ->
  dict_is_empty d = false ->
  exists trace,
    BarcodePOReceive_post request w =
      (Raise (ValidationError
                {[ "error" := VStr "Item has already been received" ]}),
       w1, trace)
    /\ trace = t1 ++ t2 ++ [EScan h barcode_data (Some d)]
    /\ called trace = [h]
    /\ Forall (fun e => is_scan_receive e = false) trace.
Proof.
  intros barcode_data Htruthy Hpo Hloc Hfind Hscan Hd.
  destruct (resolve_purchase_order_reads _ _ _ _ _ Hpo) as (_ & Hc1 & Ht1).
  destruct (resolve_location_reads _ _ _ _ _ Hloc) as (_ & Hc2 & Ht2).
  eexists. split; [|split; [reflexivity|split]].
  - unfold BarcodePOReceive_post. fold barcode_data. rewrite Htruthy.
    cbn [negb]. cbv zeta.
    unfold bind at 1. rewrite Hpo.
    unfold bind at 1. rewrite Hloc.
    unfold bind at 1, find_internal_barcode_plugin. rewrite Hfind.
    unfold ret at 1. unfold bind at 1, call_scan. rewrite Hscan.
    simpl. rewrite Hd. done.
  - by rewrite !called_app, Hc1, Hc2.
  - rewrite !Forall_app. repeat split; [done|done|by repeat constructor].
Qed.

(** What [BarcodePOReceive.post] does with a location that is not in the
    database: [StockLocation.objects.get] raises [DoesNotExist], which
    nothing catches; the "Invalid stock location" branch is not reached. *)
Lemma receive_missing_location_raises request w po t1 :
  let barcode_data := dict_get (data request) "barcode" in
  let location_pk := dict_get (data request) "location" in
  truthy barcode_data = true ->
  resolve_purchase_order (data request) w = (Ret po, w, t1) ->
  truthy location_pk = true ->
  objects_lookup StockLocation location_pk w = Missing ->
  BarcodePOReceive_post request w =
    (Raise (DoesNotExist StockLocation), w,
     t1 ++ [EGet StockLocation location_pk]).
Proof.
  intros barcode_data location_pk Htruthy Hpo Hloc Hmissing.
  unfold BarcodePOReceive_post. fold barcode_data. rewrite Htruthy.
  cbn [negb]. cbv zeta.
  unfold bind at 1. rewrite Hpo.
  unfold bind at 1, resolve_location. fold location_pk. rewrite Hloc.
  unfold bind at 1, objects_get. rewrite Hmissing. done.
Qed.

(** [resolve_location] never raises a validation error: the branch that
    would raise "Invalid stock location" is dead. *)
Lemma resolve_location_never_invalid (data : Dict) w res w1 trace detail :
  resolve_location data w = (res, w1, trace) ->
  res <> Raise (ValidationError detail).
Proof.
  unfold resolve_location, bind, objects_get, instance_truthy.
  destruct (truthy (dict_get data "location")).
  - destruct (objects_lookup StockLocation _ w); simpl;
      intros [= <- <- <-]; discriminate.
  - intros [= <- <- <-]. discriminate.
Qed.

(** ** Further properties of the endpoints *)

(** The scan loop always runs to its end or to its [break]: it never
    raises. *)
Lemma scan_loop_returns barcode plugins :
  forall plugin response w,
  exists plugin' response' w1 trace,
    scan_loop barcode plugins plugin response w
      = (Ret (plugin', response'), w1, trace)
    /\ called trace `prefix_of` plugins.
Proof.
  induction plugins as [|p plugins IH]; intros plugin response w; simpl.
  - do 4 eexists. split; [reflexivity|]. apply prefix_nil.
  - unfold bind at 1, call_scan.
    destruct (scan p barcode w) as [r0 w'] eqn:Hp. simpl.
    assert (Hrec : forall plugin0 response0,
      exists plugin' response' w1 trace,
        (let (p0, t2) := scan_loop barcode plugins plugin0 response0 w' in
         let (r1, w2) := p0 in (r1, w2, EScan p barcode r0 :: t2))
          = (Ret (plugin', response'), w1, trace)
        /\ called trace `prefix_of` p :: plugins).
    { intros plugin0 response0.
      destruct (IH plugin0 response0 w') as (pl & resp & w1 & tr & -> & Hpre).
      do 4 eexists. split; [reflexivity|]. simpl. by apply prefix_cons. }
    destruct r0 as [d0|]; [|apply Hrec].
    destruct (has_key "error" d0).
    + destruct (dict_is_empty response); apply Hrec.
    + do 4 eexists. split; [reflexivity|]. simpl.
      apply prefix_cons, prefix_nil.
Qed.


(** The plugins [BarcodeScan.post] calls are the first plugins of the
    chain, in the order of the chain. *)
Theorem scan_calls_follow_chain request w res w1 trace :
  BarcodeScan_post request w = (res, w1, trace) ->
  called trace `prefix_of` with_mixin "barcode" None.
Proof.
  unfold BarcodeScan_post.
  destruct (truthy (dict_get (data request) "barcode")); simpl.
  - unfold bind.
    destruct (scan_loop_returns (dict_get (data request) "barcode")
                (with_mixin "barcode" None) None ∅ w)
      as (plugin & response & w' & t & -> & Hpre).
    destruct plugin; simpl; intros [= <- <- <-]; by rewrite app_nil_r.
  - intros [= <- <- <-]. apply prefix_nil.
Qed.

(** A request without a barcode (or with an empty one) is refused by the
    three endpoints that read one, before anything is called. *)
Theorem missing_barcode_rejected request w :
  truthy (dict_get (data request) "barcode") = false ->
  let refused : Res Dict * World * list Event :=
    (Raise (ValidationError {[ "barcode" := VStr "Missing barcode data" ]}),
     w, []) in
  BarcodeScan_post request w = refused
  /\ BarcodeAssign_post request w = refused
  /\ BarcodePOReceive_post request w = refused.
Proof.
  intros Hfalsy refused.
  unfold BarcodeScan_post, BarcodeAssign_post, BarcodePOReceive_post.
  by rewrite Hfalsy.
Qed.

Lemma assign_to_model_granted request barcode hash model label pk instance w :
  objects_lookup model pk w = Found instance ->
  check_table_permission (user request) (table_name model) "change" w = true ->
  assign_to_model request barcode hash model label pk w =
    (Ret (<["barcode_hash" := VStr hash]>
            (<["barcode_data" := barcode]>
               (<[label := VDict {[ "pk" := instance_pk instance ]}]>
                  {[ "success" :=
                       VStr ("Assigned barcode to " +:+ label
                             +:+ " instance") ]}))),
     assign_barcode instance barcode hash w,
     [EGet model pk;
      ECheckPermission (user request) (table_name model) "change" true;
      EAssign instance barcode hash]).
Proof.
  intros Hfound Hperm.
  unfold assign_to_model, try_except, bind, objects_get,
    call_check_table_permission, call_assign_barcode.
  rewrite Hfound, Hperm. done.
Qed.

(** When no builtin plugin answers the barcode, [BarcodeAssign.post]
    binds the barcode to the entity under the first supported label that
    the request holds (labels later in the list are not looked at), given
    that the entity exists and the user may change its table. *)
Theorem assign_binds_first_label request pre model post pk instance w0 rs w :
  let barcode_data := dict_get (data request) "barcode" in
  let barcode_hash := hash_barcode barcode_data in
  let label := barcode_model_type model in
  truthy barcode_data = true ->
  scan_all barcode_data (with_mixin "barcode" (Some true)) w0 = (rs, w) ->
  Forall (fun r => r = None) rs ->
  get_supported_barcode_models = pre ++ model :: post ->
  Forall (fun m => data request !! barcode_model_type m = None) pre ->
  data request !! label = Some pk ->
  objects_lookup model pk w = Found instance ->
  check_table_permission (user request) (table_name model) "change" w = true ->
  BarcodeAssign_post request w0 =
    (Ret (<["barcode_hash" := VStr barcode_hash]>
            (<["barcode_data" := barcode_data]>
               (<[label := VDict {[ "pk" := instance_pk instance ]}]>
                  {[ "success" :=
                       VStr ("Assigned barcode to " +:+ label
                             +:+ " instance") ]}))),
     assign_barcode instance barcode_data barcode_hash w,
     scan_events barcode_data (with_mixin "barcode" (Some true)) rs
       ++ [EGet model pk;
           ECheckPermission (user request) (table_name model) "change" true;
           EAssign instance barcode_data barcode_hash]).
Proof.
  intros barcode_data barcode_hash label Htruthy Hall Hrs Hmodels Hpre Hpk
    Hfound Hperm.
  unfold BarcodeAssign_post. fold barcode_data. rewrite Htruthy. simpl.
  unfold bind at 1.
  rewrite (assign_scan_loop_all_absent _ _ _ _ _ Hall Hrs).
  unfold bind at 1. rewrite Hmodels.
  rewrite (assign_model_loop_first_label _ _ _ _ _ _ _ _ _ Hpre Hpk).
  unfold bind at 1.
  rewrite (assign_to_model_granted _ _ _ _ _ _ _ _ Hfound Hperm).
  simpl. by rewrite ?app_nil_r.
Qed.

(** [BarcodeUnassign.post] on the one supported label present, for an
    entity that exists and a user who may change its table: the barcode is
    unassigned and the success response returned. *)
Theorem unassign_unbinds request pre model post pk instance w :
  let label := barcode_model_type model in
  get_supported_barcode_models = pre ++ model :: post ->
  matched_labels (data request)
    (map barcode_model_type get_supported_barcode_models) = [label] ->
  data request !! label = Some pk ->
  objects_lookup model pk w = Found instance ->
  check_table_permission (user request) (table_name model) "change" w = true ->
  BarcodeUnassign_post request w =
    (Ret {[ "success" :=
              VStr ("Barcode unassigned from " +:+ label +:+ " instance") ]},
     unassign_barcode instance w,
     [EGet model pk;
      ECheckPermission (user request) (table_name model) "change" true;
      EUnassign instance]).
Proof.
  intros label Hmodels Hmatched Hpk Hfound Hperm.
  assert (Hpre : Forall (fun m => data request !! barcode_model_type m = None)
                   pre).
  { eapply matched_labels_single; [|by eexists].
    rewrite <- Hmodels. exact Hmatched. }
  unfold BarcodeUnassign_post. rewrite Hmatched. simpl.
  unfold bind at 1. rewrite Hmodels.
  rewrite (unassign_model_loop_first_label _ _ _ _ _ _ Hpre Hpk).
  unfold bind at 1.
  unfold unassign_from_model, try_except, bind, objects_get,
    call_check_table_permission, call_unassign_barcode.
  rewrite Hfound, Hperm. done.
Qed.

Lemma assign_model_loop_no_label request barcode hash models :
  forall valid_labels w,
    Forall (fun m => data request !! barcode_model_type m = None) models ->
    assign_model_loop request barcode hash models valid_labels w =
      (Ret (Completed (valid_labels ++ map barcode_model_type models)), w, []).
Proof.
  induction models as [|m models IH]; intros valid_labels w Hnone; simpl.
  - by rewrite app_nil_r.
  - apply Forall_cons in Hnone as [-> Hnone].
    rewrite (IH _ _ Hnone). by rewrite <- app_assoc.
Qed.

(** When no builtin plugin answers the barcode and the request holds no
    supported label, [BarcodeAssign.post] fails with the validation error
    that lists the supported labels. *)
Theorem assign_without_label request w0 rs w :
  let barcode_data := dict_get (data request) "barcode" in
  truthy barcode_data = true ->
  scan_all barcode_data (with_mixin "barcode" (Some true)) w0 = (rs, w) ->
  Forall (fun r => r = None) rs ->
  Forall (fun m => data request !! barcode_model_type m = None)
    get_supported_barcode_models ->
  BarcodeAssign_post request w0 =
    (Raise (ValidationError
              {[ "error" :=
                   VStr ("Missing data: provide one of '"
                         +:+ repr_labels
                               (map barcode_model_type
                                  get_supported_barcode_models)
                         +:+ "'") ]}),
     w, scan_events barcode_data (with_mixin "barcode" (Some true)) rs).
Proof.
  intros barcode_data Htruthy Hall Hrs Hnone.
  unfold BarcodeAssign_post. fold barcode_data. rewrite Htruthy. simpl.
  unfold bind at 1.
  rewrite (assign_scan_loop_all_absent _ _ _ _ _ Hall Hrs).
  unfold bind at 1.
  rewrite (assign_model_loop_no_label _ _ _ _ _ _ Hnone).
  simpl. by rewrite ?app_nil_r.
Qed.

(** ** The supplier loop *)

(** The loop of [BarcodePOReceive.post] over the supplier plugins is the
    loop of [BarcodeScan.post] over the same plugins with
    [scan_receive_item] in the place of [scan]: same loop variables at the
    end, same database, same calls. *)
Theorem receive_loop_is_scan_loop barcode u purchase_order location plugins :
  forall plugin response w,
    scan_loop barcode (map (receiving u purchase_order location) plugins)
      (receiving u purchase_order location <$> plugin) response w
    = match
        receive_loop barcode u purchase_order location plugins plugin
          response w
      with
      | (Ret (plugin', response'), w1, trace) =>
          (Ret (receiving u purchase_order location <$> plugin', response'),
           w1, map as_scan_event trace)
      | (Raise e, w1, trace) => (Raise e, w1, map as_scan_event trace)
      end.
Proof.
  induction plugins as [|p plugins IH]; intros plugin response w; simpl.
  - done.
  - unfold bind, call_scan, call_scan_receive_item. simpl.
    destruct (scan_receive_item p barcode u purchase_order location w)
      as [r0 w'] eqn:Hp.
    destruct r0 as [d0|]; simpl.
    + destruct (has_key "error" d0); [|done].
      destruct (dict_is_empty response).
      * rewrite (IH (Some p)).
        by destruct (receive_loop barcode u purchase_order location plugins
                       (Some p) d0 w') as [[[[pl resp]|e] w1] t].
      * rewrite IH.
        by destruct (receive_loop barcode u purchase_order location plugins
                       plugin response w') as [[[[pl resp]|e] w1] t].
    + rewrite IH.
      by destruct (receive_loop barcode u purchase_order location plugins
                     plugin response w') as [[[[pl resp]|e] w1] t].
Qed.

(** ** BarcodePOReceive.post, the supplier plugins *)

Lemma has_key_error_attach d plugin barcode hash :
  has_key "error" (attach d plugin barcode hash) = has_key "error" d.
Proof.
  unfold has_key, attach. by rewrite !lookup_insert_ne by done.
Qed.

(** What is left of [BarcodePOReceive.post] once the supplier plugins are
    reached: the loop over them and the tagging of its result. *)
Lemma receive_post_from_suppliers request w po loc w0 t0 :
  reaches_suppliers request w po loc w0 t0 ->
  let barcode_data := dict_get (data request) "barcode" in
  BarcodePOReceive_post request w =
    match
      receive_loop barcode_data (user request) po loc
        (with_mixin "supplier-barcode" None) None ∅ w0
    with
    | (Ret (plugin, response), w1, t3) =>
        let response :=
          attach response plugin barcode_data (hash_barcode barcode_data) in
        (match plugin with
         | None =>
             Raise (ValidationError
                      (<["error" := VStr "No match for supplier barcode"]>
                         response))
         | Some _ =>
             if has_key "error" response then
               Raise (ValidationError response)
             else Ret response
         end, w1, t0 ++ t3)
    | (Raise e, w1, t3) => (Raise e, w1, t0 ++ t3)
    end.
Proof.
  intros Hreach barcode_data. subst barcode_data.
  unfold reaches_suppliers in Hreach. cbv zeta in Hreach.
  destruct Hreach as (Htruthy & t1 & t2 & internal & r0 & Hpo & Hloc & Hfind
                      & Hscan & Hr0 & ->).
  unfold BarcodePOReceive_post. rewrite Htruthy.
  cbn [negb]. cbv zeta.
  unfold bind at 1. rewrite Hpo.
  unfold bind at 1. rewrite Hloc.
  unfold bind at 1, find_internal_barcode_plugin. rewrite Hfind.
  unfold ret at 1. unfold bind at 1, call_scan. rewrite Hscan.
  rewrite Hr0. unfold bind.
  destruct (receive_loop (dict_get (data request) "barcode") (user request)
              po loc (with_mixin "supplier-barcode" None) None ∅ w0)
    as [[[[plugin response]|e] w1] t3]; simpl.
  - destruct plugin as [h|]; simpl.
    + destruct (has_key "error" _); simpl;
        by rewrite ?app_nil_r, <- ?app_assoc.
    + by rewrite ?app_nil_r, <- ?app_assoc.
  - by rewrite <- ?app_assoc.
Qed.

Lemma receive_loop_first_match barcode u po loc pre h post r :
  forall plugin response w rs w1 w2,
    receive_all barcode u po loc pre w = (rs, w1) ->
    Forall (fun r => is_match r = false) rs ->
    scan_receive_item h barcode u po loc w1 = (Some r, w2) ->
    has_key "error" r = false ->
    receive_loop barcode u po loc (pre ++ h :: post) plugin response w =
      (Ret (Some h, r), w2,
       receive_events barcode u po loc pre rs
         ++ [EScanReceive h barcode u po loc (Some r)]).
Proof.
  induction pre as [|p pre IH];
    intros plugin response w rs w1 w2 Hall Hrs Hh Hr.
  - simpl in Hall. injection Hall as <- <-.
    simpl. unfold bind, call_scan_receive_item. rewrite Hh. simpl.
    by rewrite Hr.
  - simpl in Hall.
    destruct (scan_receive_item p barcode u po loc w) as [r0 w'] eqn:Hp.
    destruct (receive_all barcode u po loc pre w') as [rs' w''] eqn:Hrest.
    injection Hall as <- <-.
    apply Forall_cons in Hrs as [Hr0 Hrs].
    specialize (IH) with (1 := Hrest) (2 := Hrs) (3 := Hh) (4 := Hr).
    simpl. unfold bind at 1, call_scan_receive_item. rewrite Hp. simpl.
    destruct r0 as [d0|]; simpl in Hr0.
    + apply negb_false_iff in Hr0. rewrite Hr0.
      destruct (dict_is_empty response); by rewrite IH.
    + by rewrite IH.
Qed.

Lemma receive_loop_declined_keeps barcode u po loc plugins :
  forall plugin response w rs w1,
    (dict_is_empty response = false \/ Forall (fun r => r = None) rs) ->
    receive_all barcode u po loc plugins w = (rs, w1) ->
    Forall (fun r => is_match r = false) rs ->
    receive_loop barcode u po loc plugins plugin response w =
      (Ret (plugin, response), w1,
       receive_events barcode u po loc plugins rs).
Proof.
  induction plugins as [|p plugins IH];
    intros plugin response w rs w1 Hkeep Hall Hrs.
  - simpl in Hall. by injection Hall as <- <-.
  - simpl in Hall.
    destruct (scan_receive_item p barcode u po loc w) as [r0 w'] eqn:Hp.
    destruct (receive_all barcode u po loc plugins w') as [rs' w''] eqn:Hrest.
    injection Hall as <- <-.
    apply Forall_cons in Hrs as [Hr0 Hrs].
    assert (Hkeep' : dict_is_empty response = false
                     \/ Forall (fun r => r = None) rs').
    { destruct Hkeep as [Hne|Hnone]; [by left|right].
      by apply Forall_cons in Hnone as [_ Hnone]. }
    simpl. unfold bind at 1, call_scan_receive_item. rewrite Hp. simpl.
    destruct r0 as [d0|]; simpl in Hr0.
    + apply negb_false_iff in Hr0. rewrite Hr0.
      destruct Hkeep as [Hne|Hnone].
      * rewrite Hne. by rewrite (IH plugin response _ _ _ Hkeep' Hrest Hrs).
      * by apply Forall_cons in Hnone as [[=] _].
    + by rewrite (IH plugin response _ _ _ Hkeep' Hrest Hrs).
Qed.

Lemma receive_loop_first_error barcode u po loc pre h post e :
  forall w rs w1 w2 rs' w3,
    receive_all barcode u po loc pre w = (rs, w1) ->
    Forall (fun r => r = None) rs ->
    scan_receive_item h barcode u po loc w1 = (Some e, w2) ->
    has_key "error" e = true ->
    receive_all barcode u po loc post w2 = (rs', w3) ->
    Forall (fun r => is_match r = false) rs' ->
    receive_loop barcode u po loc (pre ++ h :: post) None ∅ w =
      (Ret (Some h, e), w3,
       receive_events barcode u po loc pre rs
         ++ EScanReceive h barcode u po loc (Some e)
            :: receive_events barcode u po loc post rs').
Proof.
  induction pre as [|p pre IH];
    intros w rs w1 w2 rs' w3 Hall Hrs Hh He Hpost Hrs'.
  - simpl in Hall. injection Hall as <- <-.
    simpl. unfold bind at 1, call_scan_receive_item. rewrite Hh. simpl.
    rewrite He, dict_is_empty_empty.
    by rewrite (receive_loop_declined_keeps _ _ _ _ _ _ _ _ _ _
                  (or_introl (has_key_nonempty _ _ He)) Hpost Hrs').
  - simpl in Hall.
    destruct (scan_receive_item p barcode u po loc w) as [r0 w'] eqn:Hp.
    destruct (receive_all barcode u po loc pre w') as [rs0 w''] eqn:Hrest.
    injection Hall as <- <-.
    apply Forall_cons in Hrs as [-> Hrs].
    simpl. unfold bind at 1, call_scan_receive_item. rewrite Hp. simpl.
    by rewrite (IH _ _ _ _ _ _ Hrest Hrs Hh He Hpost Hrs').
Qed.

(** Once the supplier plugins are reached, the first of them that returns
    a match ends [BarcodePOReceive.post]: the response is its result with
    the plugin name, the barcode and its hash attached (and no success
    message); the plugins before it were called with the request's user,
    purchase order and location and declined; the plugins after it are not
    called. *)
Theorem receive_first_match_wins request w po loc w0 t0 pre h post rs w1 r w2 :
  let barcode_data := dict_get (data request) "barcode" in
  reaches_suppliers request w po loc w0 t0 ->
  with_mixin "supplier-barcode" None = pre ++ h :: post ->
  receive_all barcode_data (user request) po loc pre w0 = (rs, w1) ->
  Forall (fun r => is_match r = false) rs ->
  scan_receive_item h barcode_data (user request) po loc w1 = (Some r, w2) ->
  has_key "error" r = false ->
  BarcodePOReceive_post request w =
    (Ret (<["barcode_hash" := VStr (hash_barcode barcode_data)]>
            (<["barcode_data" := barcode_data]>
               (<["plugin" := VStr (name h)]> r))),
     w2,
     t0 ++ receive_events barcode_data (user request) po loc pre rs
        ++ [EScanReceive h barcode_data (user request) po loc (Some r)]).
Proof.
  intros barcode_data Hreach Hchain Hall Hrs Hh Hr.
  rewrite (receive_post_from_suppliers _ _ _ _ _ _ Hreach).
  fold barcode_data. rewrite Hchain.
  rewrite (receive_loop_first_match _ _ _ _ _ _ _ _ _ _ _ _ _ _
             Hall Hrs Hh Hr).
  cbv zeta. by rewrite has_key_error_attach, Hr.
Qed.


(** Once the supplier plugins are reached, if none of them matches and
    some report an error, [BarcodePOReceive.post] fails with a validation
    error that carries the first reported error, the name of the plugin
    that reported it, the barcode and its hash; errors reported later are
    dropped. *)
Theorem receive_first_error_raised
    request w po loc w0 t0 pre h post e rs w1 w2 rs' w3 :
  let barcode_data := dict_get (data request) "barcode" in
  reaches_suppliers request w po loc w0 t0 ->
  with_mixin "supplier-barcode" None = pre ++ h :: post ->
  receive_all barcode_data (user request) po loc pre w0 = (rs, w1) ->
  Forall (fun r => r = None) rs ->
  scan_receive_item h barcode_data (user request) po loc w1 = (Some e, w2) ->
  has_key "error" e = true ->
  receive_all barcode_data (user request) po loc post w2 = (rs', w3) ->
  Forall (fun r => is_match r = false) rs' ->
  BarcodePOReceive_post request w =
    (Raise (ValidationError
              (<["barcode_hash" := VStr (hash_barcode barcode_data)]>
                 (<["barcode_data" := barcode_data]>
                    (<["plugin" := VStr (name h)]> e)))),
     w3,
     t0 ++ receive_events barcode_data (user request) po loc pre rs
        ++ EScanReceive h barcode_data (user request) po loc (Some e)
           :: receive_events barcode_data (user request) po loc post rs').
Proof.
  intros barcode_data Hreach Hchain Hall Hrs Hh He Hpost Hrs'.
  rewrite (receive_post_from_suppliers _ _ _ _ _ _ Hreach).
  fold barcode_data. rewrite Hchain.
  rewrite (receive_loop_first_error _ _ _ _ _ _ _ _ _ _ _ _ _ _
             Hall Hrs Hh He Hpost Hrs').
  cbv zeta. by rewrite has_key_error_attach, He.
Qed.

(** ** BarcodePOReceive.post, before the supplier plugins *)

(** A purchase order that is not in the database ends
    [BarcodePOReceive.post] with the validation error "Invalid purchase
    order", whatever the location is, after that one lookup and before any
    plugin is called. *)
Theorem receive_invalid_purchase_order request w :
  let barcode_data := dict_get (data request) "barcode" in
  let purchase_order_pk := dict_get (data request) "purchase_order" in
  truthy barcode_data = true ->
  truthy purchase_order_pk = true ->
  objects_lookup PurchaseOrder purchase_order_pk w = Missing ->
  BarcodePOReceive_post request w =
    (Raise (ValidationError
              {[ "purchase_order" := VStr "Invalid purchase order" ]}),
     w, [EFilterFirst PurchaseOrder purchase_order_pk]).
Proof.
  intros barcode_data purchase_order_pk Htruthy Hpk Hmissing.
  unfold BarcodePOReceive_post. fold barcode_data. rewrite Htruthy.
  cbn [negb]. cbv zeta.
  unfold bind at 1, resolve_purchase_order. fold purchase_order_pk.
  rewrite Hpk. unfold bind, objects_filter_first. by rewrite Hmissing.
Qed.

(** When no plugin of the "barcode" chain is named "InvenTreeBarcode",
    [BarcodePOReceive.post] ends in the [StopIteration] of [next], which
    nothing catches, after the purchase order and location lookups and
    without calling any plugin. *)
Theorem receive_without_internal_plugin request w po t1 loc t2 :
  truthy (dict_get (data request) "barcode") = true ->
  resolve_purchase_order (data request) w = (Ret po, w, t1) ->
  resolve_location (data request) w = (Ret loc, w, t2) ->
  Forall (fun p => name p <> "InvenTreeBarcode") (with_mixin "barcode" None) ->
  BarcodePOReceive_post request w = (Raise StopIteration, w, t1 ++ t2)
  /\ called (t1 ++ t2) = [].
Proof.
  intros Htruthy Hpo Hloc Hnone.
  destruct (resolve_purchase_order_reads _ _ _ _ _ Hpo) as (_ & Hc1 & _).
  destruct (resolve_location_reads _ _ _ _ _ Hloc) as (_ & Hc2 & _).
  split; [|by rewrite called_app, Hc1, Hc2].
  assert (Hfind : List.find
                    (fun p => bool_decide (name p = "InvenTreeBarcode"))
                    (with_mixin "barcode" None) = None).
  { induction Hnone as [|p ps Hp _ IH]; simpl; [done|].
    by rewrite bool_decide_eq_false_2. }
  unfold BarcodePOReceive_post. rewrite Htruthy.
  cbn [negb]. cbv zeta.
  unfold bind at 1. rewrite Hpo.
  unfold bind at 1. rewrite Hloc.
  unfold bind at 1, find_internal_barcode_plugin. rewrite Hfind.
  unfold raise. by rewrite app_nil_r.
Qed.

(** A run of [BarcodePOReceive.post] either ends in an exception before
    [scan_receive_item] is called on any plugin, or reaches the supplier
    plugins. *)
Lemma receive_post_cases request w res w1 trace :
  BarcodePOReceive_post request w = (res, w1, trace) ->
  (Forall (fun e => is_scan_receive e = false) trace
   /\ exists e, res = Raise e)
  \/ exists po loc w0 t0, reaches_suppliers request w po loc w0 t0.
Proof.
  unfold BarcodePOReceive_post.
  destruct (truthy (dict_get (data request) "barcode")) eqn:Htruthy;
    cbn [negb]; cbv zeta.
  2: { intros [= <- <- <-]. left. split; [constructor|by eexists]. }
  destruct (resolve_purchase_order (data request) w) as [[r1 w'] t1] eqn:Hpo.
  destruct (resolve_purchase_order_reads _ _ _ _ _ Hpo) as (-> & _ & Ht1).
  unfold bind at 1. rewrite Hpo.
  destruct r1 as [po|e].
  2: { intros [= <- <- <-]. left. split; [done|by eexists]. }
  destruct (resolve_location (data request) w) as [[r2 w'] t2] eqn:Hloc.
  destruct (resolve_location_reads _ _ _ _ _ Hloc) as (-> & _ & Ht2).
  unfold bind at 1. rewrite Hloc.
  destruct r2 as [loc|e].
  2: { intros [= <- <- <-]. left. split; [by apply Forall_app|by eexists]. }
  unfold bind at 1, find_internal_barcode_plugin.
  destruct (List.find _ (with_mixin "barcode" None)) as [internal|] eqn:Hfind.
  2: { unfold raise. intros [= <- <- <-]. left.
       split; [|by eexists]. rewrite app_nil_r. by apply Forall_app. }
  unfold ret at 1. unfold bind at 1, call_scan.
  destruct (scan internal (dict_get (data request) "barcode") w)
    as [r0 w0] eqn:Hscan.
  destruct (truthy_result r0) eqn:Hr0.
  - unfold raise. intros [= <- <- <-]. left.
    split; [|by eexists]. rewrite !Forall_app.
    repeat split; [done|done|by repeat constructor].
  - intros _. right. exists po, loc, w0. eexists.
    split; [done|]. by exists t1, t2, internal, r0.
Qed.

(** What the supplier loop leaves behind, started with no plugin and an
    empty response: it does not raise; every call is a
    [scan_receive_item] on a plugin of the list, with the arguments of the
    loop; and the plugin it ends with, if any, is one of the list. *)
Lemma receive_loop_invariant barcode u po loc plugins :
  forall plugin response w,
  exists plugin' response' w1 trace,
    receive_loop barcode u po loc plugins plugin response w
      = (Ret (plugin', response'), w1, trace)
    /\ Forall (fun e => exists p r,
                 p ∈ plugins /\ e = EScanReceive p barcode u po loc r) trace
    /\ (plugin' = plugin \/ exists h, plugin' = Some h /\ h ∈ plugins).
Proof.
  induction plugins as [|p plugins IH]; intros plugin response w; simpl.
  - do 4 eexists. split; [reflexivity|]. split; [constructor|by left].
  - unfold bind at 1, call_scan_receive_item.
    destruct (scan_receive_item p barcode u po loc w) as [r0 w'] eqn:Hp.
    simpl.
    assert (Hrec : forall plugin0 response0,
      (plugin0 = plugin \/ plugin0 = Some p) ->
      exists plugin' response' w1 trace,
        (let (p0, t2) :=
           receive_loop barcode u po loc plugins plugin0 response0 w' in
         let (r1, w2) := p0 in
         (r1, w2, EScanReceive p barcode u po loc r0 :: t2))
          = (Ret (plugin', response'), w1, trace)
        /\ Forall (fun e => exists p' r,
                     p' ∈ p :: plugins
                     /\ e = EScanReceive p' barcode u po loc r) trace
        /\ (plugin' = plugin
            \/ exists h, plugin' = Some h /\ h ∈ p :: plugins)).
    { intros plugin0 response0 Hp0.
      destruct (IH plugin0 response0 w')
        as (pl & resp & w1 & tr & -> & Htr & Hpl).
      do 4 eexists. split; [reflexivity|]. split.
      - constructor; [exists p, r0; split; [left|done]|].
        eapply Forall_impl; [exact Htr|].
        intros e (p' & r & Hin & ->). exists p', r. split; [by right|done].
      - destruct Hpl as [->|(h & -> & Hh)].
        + destruct Hp0 as [->| ->]; [by left|].
          right. exists p. split; [done|left].
        + right. exists h. split; [done|by right]. }
    destruct r0 as [d0|]; [|by apply Hrec; left].
    destruct (has_key "error" d0).
    + destruct (dict_is_empty response); apply Hrec; auto.
    + do 4 eexists. split; [reflexivity|]. split.
      * constructor; [|constructor]. exists p, (Some d0). split; [left|done].
      * right. exists p. split; [done|left].
Qed.

(** [BarcodePOReceive.post] never answers with a response that holds an
    error: a response names a supplier plugin and carries the barcode and
    its hash, and has no ["error"] key. *)
Theorem receive_response_has_no_error request w body w1 trace :
  BarcodePOReceive_post request w = (Ret body, w1, trace) ->
  let barcode_data := dict_get (data request) "barcode" in
  body !! "error" = None
  /\ body !! "barcode_data" = Some barcode_data
  /\ body !! "barcode_hash" = Some (VStr (hash_barcode barcode_data))
  /\ exists h,
      h ∈ with_mixin "supplier-barcode" None
      /\ body !! "plugin" = Some (VStr (name h)).
Proof.
  intros Hrun barcode_data.
  destruct (receive_post_cases _ _ _ _ _ Hrun)
    as [[_ [e [=]]]|(po & loc & w0 & t0 & Hreach)].
  rewrite (receive_post_from_suppliers _ _ _ _ _ _ Hreach) in Hrun.
  fold barcode_data in Hrun.
  destruct (receive_loop_invariant barcode_data (user request) po loc
              (with_mixin "supplier-barcode" None) None ∅ w0)
    as (plugin & response & w2 & t3 & Hloop & _ & Hplugin).
  rewrite Hloop in Hrun. cbv zeta in Hrun.
  destruct Hplugin as [->|(h & -> & Hh)]; [by injection Hrun|].
  destruct (has_key "error" _) eqn:Herr; [by injection Hrun|].
  injection Hrun as <- _ _.
  split; [|split; [|split]].
  - unfold has_key in Herr. by destruct (_ !! "error").
  - unfold attach. by rewrite lookup_insert_ne, lookup_insert_eq.
  - unfold attach. by rewrite lookup_insert_eq.
  - exists h. split; [done|]. unfold attach.
    by rewrite !lookup_insert_ne, lookup_insert_eq by done.
Qed.

(** Whenever [BarcodePOReceive.post] calls [scan_receive_item], the
    request has reached the supplier plugins (the purchase order and
    location passed to the plugin are the ones looked up, and the plugin
    named "InvenTreeBarcode" had nothing to say), the plugin is one of the
    "supplier-barcode" chain, and it gets the request's barcode and user. *)
Theorem receive_plugin_arguments request w res w1 trace p barcode u po loc r :
  BarcodePOReceive_post request w = (res, w1, trace) ->
  EScanReceive p barcode u po loc r ∈ trace ->
  p ∈ with_mixin "supplier-barcode" None
  /\ barcode = dict_get (data request) "barcode"
  /\ u = user request
  /\ exists w0 t0, reaches_suppliers request w po loc w0 t0.
Proof.
  intros Hrun Hin.
  destruct (receive_post_cases _ _ _ _ _ Hrun)
    as [[Hnone _]|(po' & loc' & w0 & t0 & Hreach)].
  { rewrite Forall_forall in Hnone. by specialize (Hnone _ Hin). }
  rewrite (receive_post_from_suppliers _ _ _ _ _ _ Hreach) in Hrun.
  destruct (receive_loop_invariant (dict_get (data request) "barcode")
              (user request) po' loc'
              (with_mixin "supplier-barcode" None) None ∅ w0)
    as (plugin & response & w2 & t3 & Hloop & Ht3 & _).
  rewrite Hloop in Hrun. cbv zeta in Hrun.
  injection Hrun as _ _ <-.
  assert (Ht0 : Forall (fun e => is_scan_receive e = false) t0).
  { unfold reaches_suppliers in Hreach. cbv zeta in Hreach.
    destruct Hreach as (_ & t1 & t2 & internal & r0 & Hpo & Hloc & _ & _ & _
                        & ->).
    destruct (resolve_purchase_order_reads _ _ _ _ _ Hpo) as (_ & _ & Ht1).
    destruct (resolve_location_reads _ _ _ _ _ Hloc) as (_ & _ & Ht2).
    rewrite !Forall_app. repeat split; [done|done|by repeat constructor]. }
  apply elem_of_app in Hin as [Hin|Hin].
  { rewrite Forall_forall in Ht0. by specialize (Ht0 _ Hin). }
  rewrite Forall_forall in Ht3.
  destruct (Ht3 _ Hin) as (p' & r' & Hp' & Heq).
  injection Heq as -> -> -> -> -> _.
  repeat split; [done|]. by exists w0, t0.
Qed.

(** ** Every run of BarcodeScan.post *)



(** ** Every run of BarcodeAssign.post and BarcodeUnassign.post *)




(** The ways the body of [if label in data] in [BarcodeUnassign.post]
    ends, with the calls it makes. *)
Lemma unassign_from_model_cases request model label pk w :
  exists res w1 tail,
    unassign_from_model request model label pk w = (res, w1, tail)
    /\ ((tail = [EGet model pk] /\ w1 = w
         /\ (objects_lookup model pk w = Missing
             \/ objects_lookup model pk w = Malformed)
         /\ res = Raise (ValidationError
                           {[ label :=
                                VStr "No match found for provided value" ]}))
        \/ (tail = [EGet model pk;
                    ECheckPermission (user request) (table_name model)
                      "change" false]
            /\ w1 = w
            /\ exists d, res = Raise (PermissionDenied d))
        \/ (exists instance body,
              tail = [EGet model pk;
                      ECheckPermission (user request) (table_name model)
                        "change" true;
                      EUnassign instance]
              /\ objects_lookup model pk w = Found instance
              /\ w1 = unassign_barcode instance w
              /\ res = Ret body)).
Proof.
  unfold unassign_from_model, try_except, bind, objects_get,
    call_check_table_permission, call_unassign_barcode.
  destruct (objects_lookup model pk w) as [instance| |] eqn:Hlookup; simpl.
  - destruct (check_table_permission _ _ _ w); simpl; do 3 eexists;
      (split; [reflexivity|]).
    + right. right. do 2 eexists. by repeat split.
    + right. left. repeat split. by eexists.
  - rewrite decide_True by done. simpl.
    do 3 eexists. split; [reflexivity|]. left. repeat split. by left.
  - do 3 eexists. split; [reflexivity|]. left. repeat split. by right.
Qed.

(** The calls of [BarcodeUnassign.post]: no plugin is ever called; there
    is at most one lookup, one permission check and one
    [unassign_barcode], in that order.  The barcode is unassigned exactly
    when the request succeeds, after a lookup that found the entity and a
    permission check that was granted; a request that fails leaves the
    database untouched. *)
Theorem unassign_call_order request w res w1 trace :
  BarcodeUnassign_post request w = (res, w1, trace) ->
  (trace = [] /\ w1 = w /\ exists d, res = Raise (ValidationError d))
  \/ (exists model pk,
        trace = [EGet model pk] /\ w1 = w
        /\ exists d, res = Raise (ValidationError d))
  \/ (exists model pk,
        trace = [EGet model pk;
                 ECheckPermission (user request) (table_name model)
                   "change" false]
        /\ w1 = w
        /\ exists d, res = Raise (PermissionDenied d))
  \/ (exists model pk instance body,
        trace = [EGet model pk;
                 ECheckPermission (user request) (table_name model)
                   "change" true;
                 EUnassign instance]
        /\ objects_lookup model pk w = Found instance
        /\ w1 = unassign_barcode instance w
        /\ res = Ret body).
Proof.
  unfold BarcodeUnassign_post.
  destruct (length _ =? 0)%nat.
  { intros [= <- <- <-]. left. repeat split. by eexists. }
  destruct (1 <? length _)%nat.
  { intros [= <- <- <-]. left. repeat split. by eexists. }
  assert (Hloop : forall models,
    unassign_model_loop request models w = (Ret (Completed tt), w, [])
    \/ (exists model pk,
          unassign_model_loop request models w
          = bind (unassign_from_model request model
                    (barcode_model_type model) pk)
                 (fun response => ret (Returned response)) w)).
  { induction models as [|m models IH]; simpl.
    - by left.
    - destruct (data request !! barcode_model_type m) as [pk|].
      + right. by exists m, pk.
      + apply IH. }
  unfold bind at 1.
  destruct (Hloop get_supported_barcode_models) as [->|(model & pk & ->)].
  { unfold raise. intros [= <- <- <-]. left. repeat split. by eexists. }
  unfold bind at 1.
  destruct (unassign_from_model_cases request model
              (barcode_model_type model) pk w)
    as (res1 & w2 & tail & -> & Hcase).
  destruct Hcase as [(-> & -> & _ & ->)|[(-> & -> & d & ->)
                     |(instance & body & -> & Hfound & -> & ->)]];
    simpl; intros [= <- <- <-].
  - right. left. exists model, pk. repeat split. by eexists.
  - right. right. left. exists model, pk. repeat split. by eexists.
  - right. right. right. exists model, pk, instance, body. by repeat split.
Qed.

(** ** Entities that are not found, and keys that are not read *)

(** When no builtin plugin answers the barcode, [BarcodeAssign.post] on
    the first supported label present, with a primary key that is not in
    the table or cannot be a primary key, fails with the validation error
    "No matching ... instance found in database" right after the lookup:
    no permission is checked and nothing is assigned. *)
Theorem assign_entity_not_found request pre model post pk w0 rs w :
  let barcode_data := dict_get (data request) "barcode" in
  let label := barcode_model_type model in
  truthy barcode_data = true ->
  scan_all barcode_data (with_mixin "barcode" (Some true)) w0 = (rs, w) ->
  Forall (fun r => r = None) rs ->
  get_supported_barcode_models = pre ++ model :: post ->
  Forall (fun m => data request !! barcode_model_type m = None) pre ->
  data request !! label = Some pk ->
  objects_lookup model pk w = Missing \/ objects_lookup model pk w = Malformed ->
  BarcodeAssign_post request w0 =
    (Raise (ValidationError
              {[ "error" :=
                   VStr ("No matching " +:+ label
                         +:+ " instance found in database") ]}),
     w,
     scan_events barcode_data (with_mixin "barcode" (Some true)) rs
       ++ [EGet model pk]).
Proof.
  intros barcode_data label Htruthy Hall Hrs Hmodels Hpre Hpk Hlookup.
  unfold BarcodeAssign_post. fold barcode_data. rewrite Htruthy. simpl.
  unfold bind at 1.
  rewrite (assign_scan_loop_all_absent _ _ _ _ _ Hall Hrs).
  unfold bind at 1. rewrite Hmodels.
  rewrite (assign_model_loop_first_label _ _ _ _ _ _ _ _ _ Hpre Hpk).
  unfold bind at 1.
  unfold assign_to_model, try_except, bind, objects_get.
  destruct Hlookup as [-> | ->]; simpl; [rewrite decide_True by done|]; done.
Qed.

(** [BarcodeUnassign.post] on the one supported label present, with a
    primary key that is not in the table or cannot be a primary key, fails
    with the validation error "No match found for provided value" under
    that label, right after the lookup: no permission is checked and
    nothing is unassigned. *)
Theorem unassign_entity_not_found request pre model post pk w :
  let label := barcode_model_type model in
  get_supported_barcode_models = pre ++ model :: post ->
  matched_labels (data request)
    (map barcode_model_type get_supported_barcode_models) = [label] ->
  data request !! label = Some pk ->
  objects_lookup model pk w = Missing \/ objects_lookup model pk w = Malformed ->
  BarcodeUnassign_post request w =
    (Raise (ValidationError
              {[ label := VStr "No match found for provided value" ]}),
     w, [EGet model pk]).
Proof.
  intros label Hmodels Hmatched Hpk Hlookup.
  assert (Hpre : Forall (fun m => data request !! barcode_model_type m = None)
                   pre).
  { eapply matched_labels_single; [|by eexists].
    rewrite <- Hmodels. exact Hmatched. }
  unfold BarcodeUnassign_post. rewrite Hmatched. simpl.
  unfold bind at 1. rewrite Hmodels.
  rewrite (unassign_model_loop_first_label _ _ _ _ _ _ Hpre Hpk).
  unfold bind at 1.
  unfold unassign_from_model, try_except, bind, objects_get.
  destruct Hlookup as [-> | ->]; simpl; [rewrite decide_True by done|]; done.
Qed.

Lemma matched_labels_agree (d1 d2 : Dict) (models : list Model) :
  Forall (fun m => d1 !! barcode_model_type m = d2 !! barcode_model_type m)
    models ->
  matched_labels d1 (map barcode_model_type models)
  = matched_labels d2 (map barcode_model_type models).
Proof.
  induction 1 as [|m models Hm _ IH]; simpl; [done|].
  unfold has_key. rewrite Hm, IH. done.
Qed.

(** [BarcodeUnassign.post] reads the request's user and the entries
    under the supported labels, and nothing else; [BarcodeAssign.post]
    reads those and the barcode.  Two requests that agree on them get the
    same answer, make the same calls and leave the same database. *)
Theorem binding_requests_read_only_their_keys r1 r2 w :
  user r1 = user r2 ->
  Forall (fun m => data r1 !! barcode_model_type m
                   = data r2 !! barcode_model_type m)
    get_supported_barcode_models ->
  BarcodeUnassign_post r1 w = BarcodeUnassign_post r2 w
  /\ (dict_get (data r1) "barcode" = dict_get (data r2) "barcode" ->
      BarcodeAssign_post r1 w = BarcodeAssign_post r2 w).
Proof.
  intros Huser Hlabels. split.
  - unfold BarcodeUnassign_post.
    rewrite (matched_labels_agree _ _ _ Hlabels).
    destruct (length _ =? 0)%nat; [done|].
    destruct (1 <? length _)%nat; [done|].
    unfold bind. 
    assert (Hloop : unassign_model_loop r1 get_supported_barcode_models w
                    = unassign_model_loop r2 get_supported_barcode_models w).
    { induction Hlabels as [|m models Hm _ IH]; simpl; [done|].
      rewrite Hm. destruct (data r2 !! barcode_model_type m); [|done].
      unfold bind, unassign_from_model, call_check_table_permission.
      by rewrite Huser. }
    by rewrite Hloop.
  - intros Hbarcode. unfold BarcodeAssign_post. rewrite Hbarcode.
    destruct (truthy _); simpl; [|done].
    unfold bind.
    destruct (assign_scan_loop _ _ w) as [[[[]|e] w0] t0]; [|done].
    assert (Hloop : forall valid_labels,
      assign_model_loop r1 (dict_get (data r2) "barcode")
        (hash_barcode (dict_get (data r2) "barcode"))
        get_supported_barcode_models valid_labels w0
      = assign_model_loop r2 (dict_get (data r2) "barcode")
          (hash_barcode (dict_get (data r2) "barcode"))
          get_supported_barcode_models valid_labels w0).
    { induction Hlabels as [|m models Hm _ IH]; intros valid_labels; simpl;
        [done|].
      rewrite Hm. destruct (data r2 !! barcode_model_type m); [|apply IH].
      unfold bind, assign_to_model, try_except, bind,
        call_check_table_permission.
      by rewrite Huser. }
    by rewrite Hloop.
Qed.

(** ** Every run of BarcodePOReceive.post *)

Lemma resolve_purchase_order_trace (data : Dict) w res w1 trace :
  resolve_purchase_order data w = (res, w1, trace) ->
  trace = []
  \/ (truthy (dict_get data "purchase_order") = true
      /\ trace = [EFilterFirst PurchaseOrder (dict_get data "purchase_order")]).
Proof.
  unfold resolve_purchase_order, bind, objects_filter_first.
  destruct (truthy (dict_get data "purchase_order")); [|by intros [= <-]; left].
  destruct (objects_lookup PurchaseOrder _ w); simpl;
    intros [= _ _ <-]; by right.
Qed.

Lemma resolve_location_trace (data : Dict) w res w1 trace :
  resolve_location data w = (res, w1, trace) ->
  trace = []
  \/ (truthy (dict_get data "location") = true
      /\ trace = [EGet StockLocation (dict_get data "location")]).
Proof.
  unfold resolve_location, bind, objects_get.
  destruct (truthy (dict_get data "location")); [|by intros [= <-]; left].
  destruct (objects_lookup StockLocation _ w); simpl;
    intros [= _ _ <-]; by right.
Qed.

(** The calls of [BarcodePOReceive.post], in order: at most one lookup of
    the purchase order and one of the location (each only when the request
    gives a non-empty reference), at most one [scan], on the plugin named
    "InvenTreeBarcode", then calls of [scan_receive_item] on supplier
    plugins with the request's barcode and user.  The handler itself checks
    no table permission and assigns or unassigns no barcode. *)
Theorem receive_call_order request w res w1 trace :
  BarcodePOReceive_post request w = (res, w1, trace) ->
  let barcode_data := dict_get (data request) "barcode" in
  exists t1 t2 t3 t4,
    trace = t1 ++ t2 ++ t3 ++ t4
    /\ (t1 = []
        \/ (truthy (dict_get (data request) "purchase_order") = true
            /\ t1 = [EFilterFirst PurchaseOrder
                       (dict_get (data request) "purchase_order")]))
    /\ (t2 = []
        \/ (truthy (dict_get (data request) "location") = true
            /\ t2 = [EGet StockLocation (dict_get (data request) "location")]))
    /\ (t3 = []
        \/ exists internal r0,
             name internal = "InvenTreeBarcode"
             /\ internal ∈ with_mixin "barcode" None
             /\ t3 = [EScan internal barcode_data r0])
    /\ Forall (fun e => exists p po loc r,
                 p ∈ with_mixin "supplier-barcode" None
                 /\ e = EScanReceive p barcode_data (user request) po loc r)
         t4.
Proof.
  intros Hrun barcode_data. revert Hrun.
  unfold BarcodePOReceive_post. fold barcode_data.
  destruct (truthy barcode_data) eqn:Htruthy; cbn [negb]; cbv zeta.
  2: { intros [= <- <- <-]. exists [], [], [], [].
       repeat split; (by left) || constructor. }
  destruct (resolve_purchase_order (data request) w) as [[r1 w'] t1] eqn:Hpo.
  destruct (resolve_purchase_order_reads _ _ _ _ _ Hpo) as (-> & _ & _).
  pose proof (resolve_purchase_order_trace _ _ _ _ _ Hpo) as Ht1.
  unfold bind at 1. rewrite Hpo.
  destruct r1 as [po|e].
  2: { intros [= <- <- <-]. exists t1, [], [], []. rewrite !app_nil_r.
       repeat split; done || (by left) || constructor. }
  destruct (resolve_location (data request) w) as [[r2 w'] t2] eqn:Hloc.
  destruct (resolve_location_reads _ _ _ _ _ Hloc) as (-> & _ & _).
  pose proof (resolve_location_trace _ _ _ _ _ Hloc) as Ht2.
  unfold bind at 1. rewrite Hloc.
  destruct r2 as [loc|e].
  2: { intros [= <- <- <-]. exists t1, t2, [], []. rewrite !app_nil_r.
       repeat split; done || (by left) || constructor. }
  unfold bind at 1, find_internal_barcode_plugin.
  destruct (List.find _ (with_mixin "barcode" None)) as [internal|] eqn:Hfind.
  2: { unfold raise. intros [= <- <- <-]. exists t1, t2, [], [].
       rewrite !app_nil_r.
       repeat split; done || (by left) || constructor. }
  apply find_some in Hfind as [Hin Hname].
  apply bool_decide_eq_true_1 in Hname. apply list_elem_of_In in Hin.
  unfold ret at 1. unfold bind at 1, call_scan.
  destruct (scan internal barcode_data w) as [r0 w0] eqn:Hscan.
  assert (Ht3 : [EScan internal barcode_data r0] = []
                \/ exists internal' r0',
                     name internal' = "InvenTreeBarcode"
                     /\ internal' ∈ with_mixin "barcode" None
                     /\ [EScan internal barcode_data r0]
                        = [EScan internal' barcode_data r0']).
  { right. by exists internal, r0. }
  destruct (truthy_result r0).
  { unfold raise. intros [= <- <- <-].
    exists t1, t2, [EScan internal barcode_data r0], [].
    repeat split; done || constructor. }
  unfold bind at 1.
  destruct (receive_loop_invariant barcode_data (user request) po loc
              (with_mixin "supplier-barcode" None) None ∅ w0)
    as (plugin & response & w2 & t4 & -> & Ht4 & _).
  assert (Ht4' : Forall (fun e => exists p po loc r,
                           p ∈ with_mixin "supplier-barcode" None
                           /\ e = EScanReceive p barcode_data (user request)
                                    po loc r) t4).
  { eapply Forall_impl; [exact Ht4|].
    intros e (p & r & Hp & ->). by exists p, po, loc, r. }
  destruct plugin as [h|]; simpl.
  - destruct (has_key "error" _); simpl; intros [= <- <- <-];
      exists t1, t2, [EScan internal barcode_data r0], t4;
      rewrite ?app_nil_r; by repeat split.
  - intros [= <- <- <-].
    exists t1, t2, [EScan internal barcode_data r0], t4.
    rewrite ?app_nil_r. by repeat split.
Qed.

End Properties.

(** * The properties on the small installation *)

(** C1, on the code.  The chain is the internal plugin, which does not
    know the barcode, and a plugin that reports an error.  The request is
    answered with a response (not a validation error) that carries the
    success message together with the plugin's error. *)
Example scan_error_only_is_answered_as_success :
  @BarcodeScan_post Demo.backend
    (Demo.registry [Demo.internal; Demo.broken] [] [])
    (Demo.request {[ "barcode" := VStr "ABC123" ]} true) Demo.db0
  = (Ret (<["success" := VStr "Match found for barcode data"]>
            (<["barcode_hash" := VStr "md5:ABC123"]>
               (<["barcode_data" := VStr "ABC123"]>
                  (<["plugin" := VStr "Broken"]>
                     {[ "error" := VStr "Unreadable barcode" ]})))),
     Demo.db0,
     [EScan Demo.internal (VStr "ABC123") None;
      EScan Demo.broken (VStr "ABC123")
        (Some {[ "error" := VStr "Unreadable barcode" ]})]).
Proof. vm_compute. reflexivity. Qed.

(** The chain of C2 and C3: a plugin that reports an error, then the
    internal plugin, which matches, then a supplier plugin that would match
    too.  The response is the internal plugin's, and the supplier plugin is
    not called. *)
Lemma scan_first_match_wins_witness :
  is_match (fst (scan Demo.vendor (VStr "INV-7") Demo.db0)) = true
  /\ exists trace,
      @BarcodeScan_post Demo.backend
        (Demo.registry [Demo.broken; Demo.internal; Demo.vendor] [] [])
        (Demo.request {[ "barcode" := VStr "INV-7" ]} true) Demo.db0
      = (Ret (<["success" := VStr "Match found for barcode data"]>
                (<["barcode_hash" := VStr "md5:INV-7"]>
                   (<["barcode_data" := VStr "INV-7"]>
                      (<["plugin" := VStr "InvenTreeBarcode"]>
                         {[ "stockitem" := VDict {[ "pk" := VInt 7 ]} ]})))),
         Demo.db0, trace)
      /\ trace =
           [EScan Demo.broken (VStr "INV-7")
              (Some {[ "error" := VStr "Unreadable barcode" ]});
            EScan Demo.internal (VStr "INV-7")
              (Some {[ "stockitem" := VDict {[ "pk" := VInt 7 ]} ]})]
      /\ called trace = [Demo.broken; Demo.internal].
Proof.
  split; [reflexivity|].
  refine (@scan_first_match_wins Demo.backend
           (Demo.registry [Demo.broken; Demo.internal; Demo.vendor] [] [])
           (Demo.request {[ "barcode" := VStr "INV-7" ]} true)
           [Demo.broken] Demo.internal [Demo.vendor] Demo.db0
           [Some {[ "error" := VStr "Unreadable barcode" ]}] Demo.db0
           {[ "stockitem" := VDict {[ "pk" := VInt 7 ]} ]} Demo.db0
            _ _ _ _ _ _).
  - reflexivity.
  - reflexivity.
  - reflexivity.
  - repeat constructor.
  - reflexivity.
  - reflexivity.
Defined.



(** The barcode of stock item 7 cannot be assigned to part 42, although
    part 42 exists and the user may change it. *)
Lemma assign_rejects_known_barcode_witness :
  exists trace,
    @BarcodeAssign_post Demo.backend
      (Demo.registry [] [Demo.silent; Demo.internal] [])
      (Demo.request (<["part" := VInt 42]> {[ "barcode" := VStr "INV-7" ]})
         true) Demo.db0
    = (Raise (ValidationError
                (<["barcode_data" := VStr "INV-7"]>
                   (<["plugin" := VStr "InvenTreeBarcode"]>
                      (<["error" := VStr "Barcode matches existing item"]>
                         {[ "stockitem" := VDict {[ "pk" := VInt 7 ]} ]})))),
       Demo.db0, trace)
    /\ trace =
         [EScan Demo.silent (VStr "INV-7") None;
          EScan Demo.internal (VStr "INV-7")
            (Some {[ "stockitem" := VDict {[ "pk" := VInt 7 ]} ]})]
    /\ Forall (fun e => is_mutation e = false) trace.
Proof.
  refine (@assign_rejects_known_barcode Demo.backend
           (Demo.registry [] [Demo.silent; Demo.internal] [])
           (Demo.request
              (<["part" := VInt 42]> {[ "barcode" := VStr "INV-7" ]}) true)
           [Demo.silent] Demo.internal [] Demo.db0 [None] Demo.db0
           {[ "stockitem" := VDict {[ "pk" := VInt 7 ]} ]} Demo.db0
            _ _ _ _ _).
  - reflexivity.
  - reflexivity.
  - reflexivity.
  - repeat constructor.
  - reflexivity.
Defined.

(** C5 as the claim states it fails in two ways.  When the internal
    plugin's answer is the empty dictionary, the answer is an outcome
    ([scan] did not return [None]), yet the request is not rejected, and
    [scan_receive_item] is called on the supplier plugin, whose match is
    returned.  When the internal plugin knows the barcode and the request
    names a purchase order that is not in the database, the request ends
    in "Invalid purchase order" before the internal plugin is asked. *)
Lemma receive_empty_answer_not_rejected :
  (truthy (VStr "DK-1") = true
   /\ scan Demo.hollow (VStr "DK-1") Demo.db0 = (Some ∅, Demo.db0)
   /\ @BarcodePOReceive_post Demo.backend
        (Demo.registry [Demo.hollow] [] [Demo.vendor])
        (Demo.request {[ "barcode" := VStr "DK-1" ]} true) Demo.db0
      = (Ret (<["barcode_hash" := VStr "md5:DK-1"]>
                (<["barcode_data" := VStr "DK-1"]>
                   (<["plugin" := VStr "DigiKey"]>
                      {[ "supplierpart" := VDict {[ "pk" := VInt 42 ]} ]}))),
         Demo.db0,
         [EScan Demo.hollow (VStr "DK-1") (Some ∅);
          EScanReceive Demo.vendor (VStr "DK-1") true None None
            (Some {[ "supplierpart" := VDict {[ "pk" := VInt 42 ]} ]})]))
  /\ (scan Demo.internal (VStr "INV-7") Demo.db0
      = (Some {[ "stockitem" := VDict {[ "pk" := VInt 7 ]} ]}, Demo.db0)
     /\ @BarcodePOReceive_post Demo.backend
          (Demo.registry [Demo.internal] [] [Demo.vendor])
          (Demo.request
             (<["purchase_order" := VInt 999]>
                {[ "barcode" := VStr "INV-7" ]}) true) Demo.db0
        = (Raise (ValidationError
                    {[ "purchase_order" := VStr "Invalid purchase order" ]}),
           Demo.db0, [EFilterFirst Demo.purchaseorder (VInt 999)])).
Proof. repeat split; vm_compute; reflexivity. Qed.

(** Receiving the barcode of stock item 7 against purchase order 7 and
    location 42 is rejected, and the supplier plugin is not called. *)
Lemma receive_rejects_known_item_witness :
  exists trace,
    @BarcodePOReceive_post Demo.backend
      (Demo.registry [Demo.internal; Demo.vendor] [] [Demo.vendor])
      (Demo.request
         (<["location" := VInt 42]>
            (<["purchase_order" := VInt 7]>
               {[ "barcode" := VStr "INV-7" ]})) true) Demo.db0
    = (Raise (ValidationError
                {[ "error" := VStr "Item has already been received" ]}),
       Demo.db0, trace)
    /\ trace =
         [EFilterFirst Demo.purchaseorder (VInt 7)]
           ++ [EGet Demo.stocklocation (VInt 42)]
           ++ [EScan Demo.internal (VStr "INV-7")
                 (Some {[ "stockitem" := VDict {[ "pk" := VInt 7 ]} ]})]
    /\ called trace = [Demo.internal]
    /\ Forall (fun e => is_scan_receive e = false) trace.
Proof.
  refine (@receive_rejects_known_item Demo.backend
            (Demo.registry [Demo.internal; Demo.vendor] [] [Demo.vendor])
            (Demo.request
               (<["location" := VInt 42]>
                  (<["purchase_order" := VInt 7]>
                     {[ "barcode" := VStr "INV-7" ]})) true) Demo.db0
            (Some 7%Z) [EFilterFirst Demo.purchaseorder (VInt 7)]
            (Some 42%Z) [EGet Demo.stocklocation (VInt 42)]
            Demo.internal
            {[ "stockitem" := VDict {[ "pk" := VInt 7 ]} ]} Demo.db0
            _ _ _ _ _ _).
  - reflexivity.
  - vm_compute. reflexivity.
  - vm_compute. reflexivity.
  - reflexivity.
  - reflexivity.
  - vm_compute. reflexivity.
Defined.

(** C8, on the code.  Location 999 is not in the database: the request
    ends in the uncaught [DoesNotExist] of [StockLocation.objects.get], not
    in the validation error "Invalid stock location". *)
Example receive_missing_location_is_not_a_validation_error :
  @BarcodePOReceive_post Demo.backend
    (Demo.registry [Demo.internal] [] [Demo.vendor])
    (Demo.request
       (<["location" := VInt 999]> {[ "barcode" := VStr "DK-1" ]}) true)
    Demo.db0
  = (Raise (DoesNotExist Demo.stocklocation), Demo.db0,
     [EGet Demo.stocklocation (VInt 999)]).
Proof. vm_compute. reflexivity. Qed.

(** The sibling lookup does what the location lookup misses: purchase
    order 999 is not in the database, and the request ends in the
    validation error "Invalid purchase order". *)
Example receive_missing_purchase_order_is_a_validation_error :
  @BarcodePOReceive_post Demo.backend
    (Demo.registry [Demo.internal] [] [Demo.vendor])
    (Demo.request
       (<["purchase_order" := VInt 999]> {[ "barcode" := VStr "DK-1" ]}) true)
    Demo.db0
  = (Raise (ValidationError
              {[ "purchase_order" := VStr "Invalid purchase order" ]}),
     Demo.db0, [EFilterFirst Demo.purchaseorder (VInt 999)]).
Proof. vm_compute. reflexivity. Qed.

(** The sibling endpoint does what [BarcodeScan.post] misses: when the
    only answer of the supplier plugins is an error, [BarcodePOReceive.post]
    raises a validation error. *)
Example receive_error_only_is_a_validation_error :
  @BarcodePOReceive_post Demo.backend
    (Demo.registry [Demo.internal] [] [Demo.broken])
    (Demo.request {[ "barcode" := VStr "ABC123" ]} true) Demo.db0
  = (Raise (ValidationError
              (<["barcode_hash" := VStr "md5:ABC123"]>
                 (<["barcode_data" := VStr "ABC123"]>
                    (<["plugin" := VStr "Broken"]>
                       {[ "error" := VStr "Unreadable barcode" ]})))),
     Demo.db0,
     [EScan Demo.internal (VStr "ABC123") None;
      EScanReceive Demo.broken (VStr "ABC123") true None None
        (Some {[ "error" := VStr "Unreadable barcode" ]})]).
Proof. vm_compute. reflexivity. Qed.

(** C6 as the claim states it fails when the entity does not exist: the
    user may not change the stock item table, stock item 999 is not in the
    database, and both endpoints end in a validation error, without asking
    for the permission. *)
Lemma permission_not_checked_for_missing_entity :
  check_table_permission (Backend := Demo.backend) false
    (table_name Demo.stockitem) "change" Demo.db0 = false
  /\ @BarcodeAssign_post Demo.backend (Demo.registry [] [Demo.internal] [])
       (Demo.request
          (<["stockitem" := VInt 999]> {[ "barcode" := VStr "NEW-1" ]}) false)
       Demo.db0
     = (Raise (ValidationError
                 {[ "error" :=
                      VStr "No matching stockitem instance found in database" ]}),
        Demo.db0,
        [EScan Demo.internal (VStr "NEW-1") None;
         EGet Demo.stockitem (VInt 999)])
  /\ @BarcodeUnassign_post Demo.backend
       (Demo.request {[ "stockitem" := VInt 999 ]} false) Demo.db0
     = (Raise (ValidationError
                 {[ "stockitem" := VStr "No match found for provided value" ]}),
        Demo.db0, [EGet Demo.stockitem (VInt 999)]).
Proof. repeat split; vm_compute; reflexivity. Qed.

(** Stock item 42 exists and the user may not change its table: assigning
    a new barcode to it and unassigning its barcode both end in the
    permission error. *)
Lemma change_permission_checked_on_found_entity_witness :
  (exists trace,
     @BarcodeAssign_post Demo.backend (Demo.registry [] [Demo.internal] [])
       (Demo.request
          (<["stockitem" := VInt 42]> {[ "barcode" := VStr "NEW-1" ]}) false)
       Demo.db0
     = (Raise (PermissionDenied
                 {[ "error" :=
                      VStr "You do not have the required permissions for stock_stockitem" ]}),
        Demo.db0, trace)
     /\ trace =
          [EScan Demo.internal (VStr "NEW-1") None]
            ++ [EGet Demo.stockitem (VInt 42);
                ECheckPermission (B := Demo.backend) false "stock_stockitem"
                  "change" false]
     /\ Forall (fun e => is_mutation e = false) trace)
  /\ @BarcodeUnassign_post Demo.backend
       (Demo.request {[ "stockitem" := VInt 42 ]} false) Demo.db0
     = (Raise (PermissionDenied
                 {[ "error" :=
                      VStr "You do not have the required permissions for stock_stockitem" ]}),
        Demo.db0,
        [EGet Demo.stockitem (VInt 42);
         ECheckPermission (B := Demo.backend) false "stock_stockitem"
           "change" false]).
Proof.
  pose proof (@change_permission_checked_on_found_entity Demo.backend
                (Demo.registry [] [Demo.internal] [])
                Demo.stockitem (VInt 42) 42%Z false Demo.db0
                eq_refl eq_refl) as [Hassign Hunassign].
  split.
  - refine (Hassign
              (Demo.request
                 (<["stockitem" := VInt 42]> {[ "barcode" := VStr "NEW-1" ]})
                 false)
              [Demo.part] [] Demo.db0 [None] _ _ _ _ _ _ _).
    + reflexivity.
    + reflexivity.
    + reflexivity.
    + repeat constructor.
    + reflexivity.
    + repeat constructor.
    + reflexivity.
  - refine (Hunassign (Demo.request {[ "stockitem" := VInt 42 ]} false)
              [Demo.part] [] _ _ _ _).
    + reflexivity.
    + reflexivity.
    + vm_compute. reflexivity.
    + reflexivity.
Defined.

(** A request naming a part and a stock item, and a request naming
    neither: both are refused before anything is looked up. *)
Lemma unassign_label_count_checked_witness :
  @BarcodeUnassign_post Demo.backend
    (Demo.request (<["stockitem" := VInt 42]> {[ "part" := VInt 7 ]}) true)
    Demo.db0
  = (Raise (ValidationError
              {[ "error" :=
                   VStr "Multiple conflicting fields: 'part, stockitem'" ]}),
     Demo.db0, [])
  /\ @BarcodeUnassign_post Demo.backend
       (Demo.request {[ "barcode" := VStr "INV-7" ]} true) Demo.db0
     = (Raise (ValidationError
                 {[ "error" :=
                      VStr "Missing data: Provide one of 'part, stockitem'" ]}),
        Demo.db0, []).
Proof.
  split.
  - refine (proj1 (@unassign_label_count_checked Demo.backend
                     (Demo.request
                        (<["stockitem" := VInt 42]> {[ "part" := VInt 7 ]})
                        true) Demo.db0)
              "part" "stockitem" _ _ _ _ _).
    + discriminate.
    + left.
    + right. left.
    + by eexists.
    + by eexists.
  - refine (proj2 (@unassign_label_count_checked Demo.backend
                     (Demo.request {[ "barcode" := VStr "INV-7" ]} true)
                     Demo.db0) _).
    intros l Hl. simpl in Hl.
    apply elem_of_cons in Hl as [->|Hl]; [reflexivity|].
    apply elem_of_cons in Hl as [->|Hl]; [reflexivity|].
    by apply elem_of_nil in Hl.
Defined.



(** Of the chain silent, internal, vendor, the first two are called. *)
Lemma scan_calls_follow_chain_witness :
  [Demo.silent; Demo.internal]
    `prefix_of` [Demo.silent; Demo.internal; Demo.vendor].
Proof.
  refine (@scan_calls_follow_chain Demo.backend
            (Demo.registry [Demo.silent; Demo.internal; Demo.vendor] [] [])
            (Demo.request {[ "barcode" := VStr "INV-7" ]} true) Demo.db0
            _ Demo.db0
            [EScan Demo.silent (VStr "INV-7") None;
             EScan Demo.internal (VStr "INV-7")
               (Some {[ "stockitem" := VDict {[ "pk" := VInt 7 ]} ]})]
            _).
  vm_compute. reflexivity.
Defined.

(** A request with an empty barcode. *)
Lemma missing_barcode_rejected_witness :
  @BarcodeScan_post Demo.backend (Demo.registry [Demo.internal] [] [])
    (Demo.request {[ "barcode" := VStr "" ]} true) Demo.db0
  = (Raise (ValidationError {[ "barcode" := VStr "Missing barcode data" ]}),
     Demo.db0, [])
  /\ @BarcodeAssign_post Demo.backend (Demo.registry [Demo.internal] [] [])
       (Demo.request {[ "barcode" := VStr "" ]} true) Demo.db0
     = (Raise (ValidationError {[ "barcode" := VStr "Missing barcode data" ]}),
        Demo.db0, [])
  /\ @BarcodePOReceive_post Demo.backend (Demo.registry [Demo.internal] [] [])
       (Demo.request {[ "barcode" := VStr "" ]} true) Demo.db0
     = (Raise (ValidationError {[ "barcode" := VStr "Missing barcode data" ]}),
        Demo.db0, []).
Proof.
  refine (@missing_barcode_rejected Demo.backend
            (Demo.registry [Demo.internal] [] [])
            (Demo.request {[ "barcode" := VStr "" ]} true) Demo.db0 _).
  reflexivity.
Defined.

(** A request that names part 7 and stock item 42: the unknown barcode is
    bound to the part, the first supported label. *)
Lemma assign_binds_first_label_witness :
  @BarcodeAssign_post Demo.backend (Demo.registry [] [Demo.internal] [])
    (Demo.request
       (<["stockitem" := VInt 42]>
          (<["part" := VInt 7]> {[ "barcode" := VStr "NEW-1" ]})) true)
    Demo.db0
  = (Ret (<["barcode_hash" := VStr "md5:NEW-1"]>
            (<["barcode_data" := VStr "NEW-1"]>
               (<["part" := VDict {[ "pk" := VInt 7 ]}]>
                  {[ "success" :=
                       VStr "Assigned barcode to part instance" ]}))),
     Demo.bind_barcode 7 (VStr "NEW-1") "md5:NEW-1" Demo.db0,
     [EScan Demo.internal (VStr "NEW-1") None]
       ++ [EGet Demo.part (VInt 7);
           ECheckPermission (B := Demo.backend) true "part_part" "change"
             true;
           EAssign (B := Demo.backend) 7%Z (VStr "NEW-1") "md5:NEW-1"]).
Proof.
  refine (@assign_binds_first_label Demo.backend
            (Demo.registry [] [Demo.internal] [])
            (Demo.request
               (<["stockitem" := VInt 42]>
                  (<["part" := VInt 7]> {[ "barcode" := VStr "NEW-1" ]}))
               true)
            [] Demo.part [Demo.stockitem] (VInt 7) 7%Z Demo.db0 [None]
            Demo.db0 _ _ _ _ _ _ _ _).
  - reflexivity.
  - reflexivity.
  - repeat constructor.
  - reflexivity.
  - constructor.
  - reflexivity.
  - reflexivity.
  - reflexivity.
Defined.

(** Unassigning the barcode bound to stock item 42. *)
Lemma unassign_unbinds_witness :
  @BarcodeUnassign_post Demo.backend
    (Demo.request {[ "stockitem" := VInt 42 ]} true)
    (Demo.bind_barcode 42 (VStr "X-1") "md5:X-1" Demo.db0)
  = (Ret {[ "success" := VStr "Barcode unassigned from stockitem instance" ]},
     Demo.unbind_barcode 42
       (Demo.bind_barcode 42 (VStr "X-1") "md5:X-1" Demo.db0),
     [EGet Demo.stockitem (VInt 42);
      ECheckPermission (B := Demo.backend) true "stock_stockitem" "change"
        true;
      EUnassign (B := Demo.backend) 42%Z]).
Proof.
  refine (@unassign_unbinds Demo.backend
            (Demo.request {[ "stockitem" := VInt 42 ]} true)
            [Demo.part] Demo.stockitem [] (VInt 42) 42%Z
            (Demo.bind_barcode 42 (VStr "X-1") "md5:X-1" Demo.db0)
            _ _ _ _ _).
  - reflexivity.
  - vm_compute. reflexivity.
  - reflexivity.
  - reflexivity.
  - reflexivity.
Defined.

(** The binding is gone afterwards. *)
Example unassign_unbinds_database :
  Demo.unbind_barcode 42
    (Demo.bind_barcode 42 (VStr "X-1") "md5:X-1" Demo.db0) = Demo.db0.
Proof. reflexivity. Qed.

(** An unknown barcode and no label. *)
Lemma assign_without_label_witness :
  @BarcodeAssign_post Demo.backend (Demo.registry [] [Demo.internal] [])
    (Demo.request {[ "barcode" := VStr "NEW-1" ]} true) Demo.db0
  = (Raise (ValidationError
              {[ "error" :=
                   VStr "Missing data: provide one of '['part', 'stockitem']'" ]}),
     Demo.db0, [EScan Demo.internal (VStr "NEW-1") None]).
Proof.
  refine (@assign_without_label Demo.backend
            (Demo.registry [] [Demo.internal] [])
            (Demo.request {[ "barcode" := VStr "NEW-1" ]} true)
            Demo.db0 [None] Demo.db0 _ _ _ _).
  - reflexivity.
  - reflexivity.
  - repeat constructor.
  - repeat constructor.
Defined.

(** The supplier loop on a plugin that reports an error and one that
    matches, and the scan loop on the same plugins read as scan plugins. *)
Lemma receive_loop_is_scan_loop_witness :
  @scan_loop Demo.backend (VStr "DK-1")
    (map (@receiving Demo.backend true None None) [Demo.broken; Demo.vendor])
    None ∅ Demo.db0
  = (Ret (Some (@receiving Demo.backend true None None Demo.vendor),
          {[ "supplierpart" := VDict {[ "pk" := VInt 42 ]} ]}),
     Demo.db0,
     map as_scan_event
       [EScanReceive Demo.broken (VStr "DK-1") true None None
          (Some {[ "error" := VStr "Unreadable barcode" ]});
        EScanReceive Demo.vendor (VStr "DK-1") true None None
          (Some {[ "supplierpart" := VDict {[ "pk" := VInt 42 ]} ]})]).
Proof.
  exact (@receive_loop_is_scan_loop Demo.backend (VStr "DK-1") true None None
           [Demo.broken; Demo.vendor] None ∅ Demo.db0).
Defined.

(** ** Receiving *)

(** Receiving a supplier barcode against purchase order 7: the first
    supplier plugin reports an error, the second matches, the third is not
    called. *)
Lemma receive_first_match_wins_witness :
  @BarcodePOReceive_post Demo.backend
    (Demo.registry [Demo.internal] [] [Demo.broken; Demo.vendor; Demo.silent])
    (Demo.request
       (<["purchase_order" := VInt 7]> {[ "barcode" := VStr "DK-1" ]}) true)
    Demo.db0
  = (Ret (<["barcode_hash" := VStr "md5:DK-1"]>
            (<["barcode_data" := VStr "DK-1"]>
               (<["plugin" := VStr "DigiKey"]>
                  {[ "supplierpart" := VDict {[ "pk" := VInt 42 ]} ]}))),
     Demo.db0,
     [EFilterFirst Demo.purchaseorder (VInt 7);
      EScan Demo.internal (VStr "DK-1") None]
       ++ [EScanReceive Demo.broken (VStr "DK-1") true (Some 7%Z) None
             (Some {[ "error" := VStr "Unreadable barcode" ]})]
       ++ [EScanReceive Demo.vendor (VStr "DK-1") true (Some 7%Z) None
             (Some {[ "supplierpart" := VDict {[ "pk" := VInt 42 ]} ]})]).
Proof.
  refine (@receive_first_match_wins Demo.backend
            (Demo.registry [Demo.internal] []
               [Demo.broken; Demo.vendor; Demo.silent])
            (Demo.request
               (<["purchase_order" := VInt 7]> {[ "barcode" := VStr "DK-1" ]})
               true)
            Demo.db0 (Some 7%Z) None Demo.db0
            [EFilterFirst Demo.purchaseorder (VInt 7);
             EScan Demo.internal (VStr "DK-1") None]
            [Demo.broken] Demo.vendor [Demo.silent]
            [Some {[ "error" := VStr "Unreadable barcode" ]}] Demo.db0
            {[ "supplierpart" := VDict {[ "pk" := VInt 42 ]} ]} Demo.db0
            _ _ _ _ _ _).
  - split; [reflexivity|].
    exists [EFilterFirst Demo.purchaseorder (VInt 7)], [], Demo.internal, None.
    repeat split; vm_compute; reflexivity.
  - reflexivity.
  - reflexivity.
  - repeat constructor.
  - reflexivity.
  - reflexivity.
Defined.


(** Two supplier plugins report an error: the first one's error is
    raised, under its name. *)
Lemma receive_first_error_raised_witness :
  @BarcodePOReceive_post Demo.backend
    (Demo.registry [Demo.internal] [] [Demo.silent; Demo.noisy; Demo.broken])
    (Demo.request {[ "barcode" := VStr "ABC123" ]} true) Demo.db0
  = (Raise (ValidationError
              (<["barcode_hash" := VStr "md5:ABC123"]>
                 (<["barcode_data" := VStr "ABC123"]>
                    (<["plugin" := VStr "Noisy"]>
                       {[ "error" := VStr "Checksum mismatch" ]})))),
     Demo.db0,
     [EScan Demo.internal (VStr "ABC123") None]
       ++ [EScanReceive Demo.silent (VStr "ABC123") true None None None]
       ++ EScanReceive Demo.noisy (VStr "ABC123") true None None
            (Some {[ "error" := VStr "Checksum mismatch" ]})
          :: [EScanReceive Demo.broken (VStr "ABC123") true None None
                (Some {[ "error" := VStr "Unreadable barcode" ]})]).
Proof.
  refine (@receive_first_error_raised Demo.backend
            (Demo.registry [Demo.internal] []
               [Demo.silent; Demo.noisy; Demo.broken])
            (Demo.request {[ "barcode" := VStr "ABC123" ]} true)
            Demo.db0 None None Demo.db0
            [EScan Demo.internal (VStr "ABC123") None]
            [Demo.silent] Demo.noisy [Demo.broken]
            {[ "error" := VStr "Checksum mismatch" ]}
            [None] Demo.db0 Demo.db0
            [Some {[ "error" := VStr "Unreadable barcode" ]}] Demo.db0
            _ _ _ _ _ _ _ _).
  - split; [reflexivity|].
    exists [], [], Demo.internal, None.
    repeat split; vm_compute; reflexivity.
  - reflexivity.
  - reflexivity.
  - repeat constructor.
  - reflexivity.
  - reflexivity.
  - reflexivity.
  - repeat constructor.
Defined.

(** Purchase order 999 is not in the database; neither is location 999,
    which is not looked at. *)
Lemma receive_invalid_purchase_order_witness :
  @BarcodePOReceive_post Demo.backend
    (Demo.registry [Demo.internal] [] [Demo.vendor])
    (Demo.request
       (<["location" := VInt 999]>
          (<["purchase_order" := VInt 999]> {[ "barcode" := VStr "DK-1" ]}))
       true) Demo.db0
  = (Raise (ValidationError
              {[ "purchase_order" := VStr "Invalid purchase order" ]}),
     Demo.db0, [EFilterFirst Demo.purchaseorder (VInt 999)]).
Proof.
  refine (@receive_invalid_purchase_order Demo.backend
            (Demo.registry [Demo.internal] [] [Demo.vendor])
            (Demo.request
               (<["location" := VInt 999]>
                  (<["purchase_order" := VInt 999]>
                     {[ "barcode" := VStr "DK-1" ]})) true)
            Demo.db0 _ _ _); reflexivity.
Defined.

(** A registry whose "barcode" chain has no plugin named
    "InvenTreeBarcode". *)
Lemma receive_without_internal_plugin_witness :
  @BarcodePOReceive_post Demo.backend
    (Demo.registry [Demo.silent; Demo.vendor] [] [Demo.vendor])
    (Demo.request
       (<["purchase_order" := VInt 7]> {[ "barcode" := VStr "DK-1" ]}) true)
    Demo.db0
  = (Raise StopIteration, Demo.db0,
     [EFilterFirst Demo.purchaseorder (VInt 7)] ++ [])
  /\ called ([EFilterFirst (B := Demo.backend) Demo.purchaseorder (VInt 7)]
              ++ []) = [].
Proof.
  refine (@receive_without_internal_plugin Demo.backend
            (Demo.registry [Demo.silent; Demo.vendor] [] [Demo.vendor])
            (Demo.request
               (<["purchase_order" := VInt 7]> {[ "barcode" := VStr "DK-1" ]})
               true)
            Demo.db0 (Some 7%Z) [EFilterFirst Demo.purchaseorder (VInt 7)]
            None [] _ _ _ _).
  - reflexivity.
  - vm_compute. reflexivity.
  - reflexivity.
  - repeat constructor; discriminate.
Defined.

(** The response to a supplier barcode. *)
Lemma receive_response_has_no_error_witness :
  let body : Dict :=
    <["barcode_hash" := VStr "md5:DK-1"]>
      (<["barcode_data" := VStr "DK-1"]>
         (<["plugin" := VStr "DigiKey"]>
            {[ "supplierpart" := VDict {[ "pk" := VInt 42 ]} ]})) in
  body !! "error" = None
  /\ body !! "barcode_data" = Some (VStr "DK-1")
  /\ body !! "barcode_hash" = Some (VStr "md5:DK-1")
  /\ exists h,
      h ∈ [Demo.broken; Demo.vendor]
      /\ body !! "plugin" = Some (VStr (name h)).
Proof.
  refine (@receive_response_has_no_error Demo.backend
            (Demo.registry [Demo.internal] [] [Demo.broken; Demo.vendor])
            (Demo.request {[ "barcode" := VStr "DK-1" ]} true) Demo.db0
            _ Demo.db0
            [EScan Demo.internal (VStr "DK-1") None;
             EScanReceive Demo.broken (VStr "DK-1") true None None
               (Some {[ "error" := VStr "Unreadable barcode" ]});
             EScanReceive Demo.vendor (VStr "DK-1") true None None
               (Some {[ "supplierpart" := VDict {[ "pk" := VInt 42 ]} ]})]
            _).
  vm_compute. reflexivity.
Defined.

(** The call of [scan_receive_item] on the supplier plugin, in the run
    against purchase order 7 and location 42. *)
Lemma receive_plugin_arguments_witness :
  Demo.vendor ∈ [Demo.broken; Demo.vendor]
  /\ VStr "DK-1" = VStr "DK-1"
  /\ true = true
  /\ exists w0 t0,
      @reaches_suppliers Demo.backend
        (Demo.registry [Demo.internal] [] [Demo.broken; Demo.vendor])
        (Demo.request
           (<["location" := VInt 42]>
              (<["purchase_order" := VInt 7]>
                 {[ "barcode" := VStr "DK-1" ]})) true)
        Demo.db0 (Some 7%Z) (Some 42%Z) w0 t0.
Proof.
  refine (@receive_plugin_arguments Demo.backend
            (Demo.registry [Demo.internal] [] [Demo.broken; Demo.vendor])
            (Demo.request
               (<["location" := VInt 42]>
                  (<["purchase_order" := VInt 7]>
                     {[ "barcode" := VStr "DK-1" ]})) true)
            Demo.db0 _ Demo.db0
            [EFilterFirst Demo.purchaseorder (VInt 7);
             EGet Demo.stocklocation (VInt 42);
             EScan Demo.internal (VStr "DK-1") None;
             EScanReceive Demo.broken (VStr "DK-1") true (Some 7%Z)
               (Some 42%Z)
               (Some {[ "error" := VStr "Unreadable barcode" ]});
             EScanReceive Demo.vendor (VStr "DK-1") true (Some 7%Z)
               (Some 42%Z)
               (Some {[ "supplierpart" := VDict {[ "pk" := VInt 42 ]} ]})]
            Demo.vendor (VStr "DK-1") true (Some 7%Z) (Some 42%Z)
            (Some {[ "supplierpart" := VDict {[ "pk" := VInt 42 ]} ]})
            _ _).
  - vm_compute. reflexivity.
  - do 4 apply list_elem_of_further. apply list_elem_of_here.
Defined.

(** ** Every run *)



(** A run of [BarcodeUnassign.post] by a user who may not change the
    stock item table. *)
Lemma unassign_call_order_witness :
  let request := Demo.request {[ "stockitem" := VInt 42 ]} false in
  let res : Res Dict :=
    Raise (PermissionDenied
             {[ "error" :=
                  VStr "You do not have the required permissions for stock_stockitem" ]}) in
  let trace :=
    [EGet Demo.stockitem (VInt 42);
     ECheckPermission (B := Demo.backend) false "stock_stockitem" "change"
       false] in
  (trace = [] /\ Demo.db0 = Demo.db0
   /\ exists d, res = Raise (ValidationError d))
  \/ (exists model pk,
        trace = [EGet model pk] /\ Demo.db0 = Demo.db0
        /\ exists d, res = Raise (ValidationError d))
  \/ (exists model pk,
        trace = [EGet model pk;
                 ECheckPermission (user request) (table_name model)
                   "change" false]
        /\ Demo.db0 = Demo.db0
        /\ exists d, res = Raise (PermissionDenied d))
  \/ (exists model pk instance body,
        trace = [EGet model pk;
                 ECheckPermission (user request) (table_name model)
                   "change" true;
                 EUnassign instance]
        /\ objects_lookup (Backend := Demo.backend) model pk Demo.db0
           = Found instance
        /\ Demo.db0 = Demo.unbind_barcode instance Demo.db0
        /\ res = Ret body).
Proof.
  intros request res trace.
  refine (@unassign_call_order Demo.backend request Demo.db0 res Demo.db0
            trace _).
  vm_compute. reflexivity.
Defined.

(** ** Entities that are not found *)

(** Assigning to a stock item whose key is not a number. *)
Lemma assign_entity_not_found_witness :
  @BarcodeAssign_post Demo.backend (Demo.registry [] [Demo.internal] [])
    (Demo.request
       (<["stockitem" := VStr "forty-two"]> {[ "barcode" := VStr "NEW-1" ]})
       true) Demo.db0
  = (Raise (ValidationError
              {[ "error" :=
                   VStr "No matching stockitem instance found in database" ]}),
     Demo.db0,
     [EScan Demo.internal (VStr "NEW-1") None]
       ++ [EGet Demo.stockitem (VStr "forty-two")]).
Proof.
  refine (@assign_entity_not_found Demo.backend
            (Demo.registry [] [Demo.internal] [])
            (Demo.request
               (<["stockitem" := VStr "forty-two"]>
                  {[ "barcode" := VStr "NEW-1" ]}) true)
            [Demo.part] Demo.stockitem [] (VStr "forty-two") Demo.db0 [None]
            Demo.db0 _ _ _ _ _ _ _).
  - reflexivity.
  - reflexivity.
  - repeat constructor.
  - reflexivity.
  - repeat constructor.
  - reflexivity.
  - right. reflexivity.
Defined.

(** Unassigning from part 999, which is not in the database. *)
Lemma unassign_entity_not_found_witness :
  @BarcodeUnassign_post Demo.backend
    (Demo.request {[ "part" := VInt 999 ]} true) Demo.db0
  = (Raise (ValidationError
              {[ "part" := VStr "No match found for provided value" ]}),
     Demo.db0, [EGet Demo.part (VInt 999)]).
Proof.
  refine (@unassign_entity_not_found Demo.backend
            (Demo.request {[ "part" := VInt 999 ]} true)
            [] Demo.part [Demo.stockitem] (VInt 999) Demo.db0 _ _ _ _).
  - reflexivity.
  - vm_compute. reflexivity.
  - reflexivity.
  - left. reflexivity.
Defined.

(** A request with a note and a request without it. *)
Lemma binding_requests_read_only_their_keys_witness :
  @BarcodeUnassign_post Demo.backend
    (Demo.request
       (<["note" := VStr "returned"]> {[ "stockitem" := VInt 42 ]}) true)
    Demo.db0
  = @BarcodeUnassign_post Demo.backend
      (Demo.request {[ "stockitem" := VInt 42 ]} true) Demo.db0
  /\ (dict_get (<["note" := VStr "returned"]> {[ "stockitem" := VInt 42 ]})
        "barcode"
      = dict_get ({[ "stockitem" := VInt 42 ]} : Dict) "barcode" ->
      @BarcodeAssign_post Demo.backend (Demo.registry [] [Demo.internal] [])
        (Demo.request
           (<["note" := VStr "returned"]> {[ "stockitem" := VInt 42 ]}) true)
        Demo.db0
      = @BarcodeAssign_post Demo.backend (Demo.registry [] [Demo.internal] [])
          (Demo.request {[ "stockitem" := VInt 42 ]} true) Demo.db0).
Proof.
  refine (@binding_requests_read_only_their_keys Demo.backend
            (Demo.registry [] [Demo.internal] [])
            (Demo.request
               (<["note" := VStr "returned"]> {[ "stockitem" := VInt 42 ]})
               true)
            (Demo.request {[ "stockitem" := VInt 42 ]} true) Demo.db0 _ _).
  - reflexivity.
  - repeat constructor.
Defined.

(** The calls of a run of [BarcodePOReceive.post] against purchase order 7
    and location 42. *)
Lemma receive_call_order_witness :
  let site := Demo.registry [Demo.internal] [] [Demo.broken; Demo.vendor] in
  let request :=
    Demo.request
      (<["location" := VInt 42]>
         (<["purchase_order" := VInt 7]> {[ "barcode" := VStr "DK-1" ]}))
      true in
  let trace :=
    [EFilterFirst Demo.purchaseorder (VInt 7);
     EGet Demo.stocklocation (VInt 42);
     EScan Demo.internal (VStr "DK-1") None;
     EScanReceive Demo.broken (VStr "DK-1") true (Some 7%Z) (Some 42%Z)
       (Some {[ "error" := VStr "Unreadable barcode" ]});
     EScanReceive Demo.vendor (VStr "DK-1") true (Some 7%Z) (Some 42%Z)
       (Some {[ "supplierpart" := VDict {[ "pk" := VInt 42 ]} ]})] in
  exists t1 t2 t3 t4,
    trace = t1 ++ t2 ++ t3 ++ t4
    /\ (t1 = []
        \/ (truthy (dict_get (data request) "purchase_order") = true
            /\ t1 = [EFilterFirst Demo.purchaseorder
                       (dict_get (data request) "purchase_order")]))
    /\ (t2 = []
        \/ (truthy (dict_get (data request) "location") = true
            /\ t2 = [EGet Demo.stocklocation
                       (dict_get (data request) "location")]))
    /\ (t3 = []
        \/ exists internal r0,
             name internal = "InvenTreeBarcode"
             /\ internal ∈ @with_mixin Demo.backend site "barcode" None
             /\ t3 = [EScan internal (VStr "DK-1") r0])
    /\ Forall (fun e => exists p po loc r,
                 p ∈ @with_mixin Demo.backend site "supplier-barcode" None
                 /\ e = EScanReceive p (VStr "DK-1") (user request) po loc r)
         t4.
Proof.
  intros site request trace.
  refine (@receive_call_order Demo.backend site request Demo.db0 _ Demo.db0
            trace _).
  vm_compute. reflexivity.
Defined.
